(** * Bus_History: the arrival detection engine of package [collector]

    A shallow embedding of [internal/collector] (the per-station bus
    tracker [collectData], the confirmation lookup
    [getSeatsAfterFromBusLocation], the time-window gate
    [isWithinTimeWindow], the worker loop [collectForConfig] and the
    supervisor [syncConfigs] / [Start] / [Stop]) together with the
    properties of its specification.

    Conventions
    - Go [int] / [int64] values are [Z]; the only arithmetic the collector
      performs on them that can leave the 64-bit range and is stored is
      [RetryCount++], whose wrap-around is written out ([wrap_int]); the
      difference [passengersBoarded] is only printed.
    - Logging is left out: it has no effect on the state or on the calls.
    - [time.Time] is the number of nanoseconds since Go's zero time, so
      [IsZero] is a comparison with 0 and [Sub] is the saturating
      difference of package [time].
    - Go maps are [gmap]s; a [range] loop over a map is a [map_fold].  Go
      leaves the iteration order unspecified; every statement below is
      per key and holds for whatever order [map_fold] picks.
    - The three collaborators a tick talks to (snapshot source, location
      source, persistence sink) are the fields of [Upstream]: the answers
      they give during that tick. *)

From Stdlib Require Import ZArith.
From stdpp Require Import gmap strings list fin_maps.

Local Open Scope Z_scope.

(** ** Package [time] *)

Module time.
Definition Second : Z := 1000000000.
Definition Minute : Z := 60000000000.
Definition Hour : Z := 3600000000000.
Definition minDuration : Z := -9223372036854775808.
Definition maxDuration : Z := 9223372036854775807.

  (** [t.Sub(u)]: the difference, saturated to the range of [Duration]. *)
Definition Sub (t u : Z) : Z := Z.max minDuration (Z.min maxDuration (t - u)).

  (** [t.IsZero()] *)
Definition IsZero (t : Z) : bool := t =? 0.
End time.

(** [x++] on a Go [int] (64 bits, two's complement). *)
Definition wrap_int (z : Z) : Z :=
  (z + 9223372036854775808) mod 18446744073709551616 - 9223372036854775808.

(** ** Package [model] *)

Module RouteConfig.
Record t := mk {
    ID : Z;
    RouteID : string;
    RouteName : string;
    StationID : string;
    StationName : string;
    Direction : string;
    StaOrder : Z;
    IsActive : bool;
    CreatedAt : Z;
    UpdatedAt : Z
  }.
End RouteConfig.

Module BusArrivalInfo.
Record t := mk {
    RouteID : Z;
    StationID : Z;
    StationSeq : Z;
    PlateNo : string;
    RemainSeatCnt : Z;
    PredictTime1 : Z;
    LocationNo1 : Z;
    LowPlate1 : Z
  }.
End BusArrivalInfo.

Module BusLocation.
Record t := mk {
    RouteID : Z;
    StationID : Z;
    StationSeq : Z;
    PlateNo : string;
    PlateType : Z;
    RemainSeatCnt : Z;
    StationName : string
  }.
End BusLocation.

(** [model.BusArrival]; the pointers [*int] are options.  [ID] and
    [CreatedAt] are filled in by the database and are not part of what the
    collector hands over. *)
Module BusArrival.
Record t := mk {
    RouteConfigID : Z;
    BusNumber : string;
    ArrivalTime : Z;
    SeatsBefore : option Z;
    SeatsAfter : option Z
  }.
End BusArrival.

(** ** Package [collector]: data *)

Module BusState.
Record t := mk {
    PlateNo : string;
    FirstSeenAt : Z;
    LastSeenAt : Z;
    SeatsBefore : Z;
    LocationNo : Z;
    Recorded : bool;
    PendingArrivalID : Z;
    PassedAt : Z;
    RetryCount : Z
  }.

Definition with_LastSeenAt (v : Z) (s : t) : t :=
    mk (PlateNo s) (FirstSeenAt s) v (SeatsBefore s) (LocationNo s)
       (Recorded s) (PendingArrivalID s) (PassedAt s) (RetryCount s).
Definition with_SeatsBefore (v : Z) (s : t) : t :=
    mk (PlateNo s) (FirstSeenAt s) (LastSeenAt s) v (LocationNo s)
       (Recorded s) (PendingArrivalID s) (PassedAt s) (RetryCount s).
Definition with_LocationNo (v : Z) (s : t) : t :=
    mk (PlateNo s) (FirstSeenAt s) (LastSeenAt s) (SeatsBefore s) v
       (Recorded s) (PendingArrivalID s) (PassedAt s) (RetryCount s).
Definition with_Recorded (v : bool) (s : t) : t :=
    mk (PlateNo s) (FirstSeenAt s) (LastSeenAt s) (SeatsBefore s) (LocationNo s)
       v (PendingArrivalID s) (PassedAt s) (RetryCount s).
Definition with_PassedAt (v : Z) (s : t) : t :=
    mk (PlateNo s) (FirstSeenAt s) (LastSeenAt s) (SeatsBefore s) (LocationNo s)
       (Recorded s) (PendingArrivalID s) v (RetryCount s).
Definition with_RetryCount (v : Z) (s : t) : t :=
    mk (PlateNo s) (FirstSeenAt s) (LastSeenAt s) (SeatsBefore s) (LocationNo s)
       (Recorded s) (PendingArrivalID s) (PassedAt s) v.
End BusState.

(** What the outside world answers during one call of [collectData]. *)
Record Upstream := {
  (** [time.Now()] *)
  now : Z;
  (** [apiClient.GetRouteArrivalList(cfg.RouteID, cfg.StationID)];
      [None] is a non-nil [err]. *)
  GetRouteArrivalList : option (list BusArrivalInfo.t);
  (** [gbisClient.GetBusLocations(routeID)] as answered inside the call
      [getSeatsAfterFromBusLocation(routeID, plateNo)]: a tick makes at most
      one such call per plate, so the answers of a tick are a function of
      the two arguments.  [None] is a non-nil [err]. *)
  GetBusLocations : string → string → option (list BusLocation.t);
  (** [busRepo.Create(busArrival)]: [true] when the returned error is nil. *)
  Create : BusArrival.t → bool
}.

(** ** [isWithinTimeWindow]

    [hour] is [time.Now().Hour()]. *)
Definition isWithinTimeWindow (startHour endHour hour : Z) : bool :=
  if (startHour =? 0) && (endHour =? 0) then true
  else if startHour <? endHour then (hour >=? startHour) && (hour <? endHour)
  else if startHour >? endHour then (hour >=? startHour) || (hour <? endHour)
  else hour =? startHour.

(** ** [getSeatsAfterFromBusLocation]

    The scan of the [for] loop: the first location with the plate decides. *)
Fixpoint scanLocations (locations : list BusLocation.t) (plateNo : string) : option Z :=
  match locations with
  | [] => None
  | loc :: rest =>
      if decide (BusLocation.PlateNo loc = plateNo) then
        if BusLocation.RemainSeatCnt loc <? 0 then None
        else Some (BusLocation.RemainSeatCnt loc)
      else scanLocations rest plateNo
  end.

Definition getSeatsAfterFromBusLocation (up : Upstream) (routeID plateNo : string) : option Z :=
  match GetBusLocations up routeID plateNo with
  | None => None
  | Some locations => scanLocations locations plateNo
  end.

(** ** [collectData]: one collection cycle of a station worker *)

Section CollectData.
Variable cfg : RouteConfig.t.
Variable up : Upstream.

(** The entry created for a plate that is not yet tracked (the fields not
    named in the Go literal take their zero values). *)
Definition newBusState (arrival : BusArrivalInfo.t) : BusState.t :=
  BusState.mk (BusArrivalInfo.PlateNo arrival) (now up) (now up)
    (BusArrivalInfo.RemainSeatCnt arrival) (BusArrivalInfo.LocationNo1 arrival)
    false 0 0 0.

(** The update of an entry whose plate is in the snapshot again. *)
Definition updateBusState (arrival : BusArrivalInfo.t) (state : BusState.t) : BusState.t :=
  let state := BusState.with_LastSeenAt (now up) state in
  if BusArrivalInfo.LocationNo1 arrival <? BusState.LocationNo state then
    BusState.with_LocationNo (BusArrivalInfo.LocationNo1 arrival)
      (BusState.with_SeatsBefore (BusArrivalInfo.RemainSeatCnt arrival) state)
  else state.

(** Body of the loop [for _, arrival := range arrivals]; the accumulator is
    the pair ([busStates], [currentBuses]). *)
Definition processArrival (acc : gmap string BusState.t * gset string)
    (arrival : BusArrivalInfo.t) : gmap string BusState.t * gset string :=
  let '(busStates, currentBuses) := acc in
  if decide (BusArrivalInfo.PlateNo arrival = "") then acc
  else
    let currentBuses := {[BusArrivalInfo.PlateNo arrival]} ∪ currentBuses in
    match busStates !! BusArrivalInfo.PlateNo arrival with
    | None =>
        (<[BusArrivalInfo.PlateNo arrival := newBusState arrival]> busStates, currentBuses)
    | Some state =>
        (<[BusArrivalInfo.PlateNo arrival := updateBusState arrival state]> busStates,
         currentBuses)
    end.

(** [busRepo.Create(busArrival)] and what follows it: the call is logged
    with its outcome, and [Recorded] is set when the error is nil. *)
Definition saveArrival (busArrival : BusArrival.t) (state : BusState.t)
    : BusState.t * list (BusArrival.t * bool) :=
  if Create up busArrival then (BusState.with_Recorded true state, [(busArrival, true)])
  else (state, [(busArrival, false)]).

(** The block guarded by [if !state.Recorded]. *)
Definition recordPassage (plateNo : string) (state : BusState.t)
    : BusState.t * list (BusArrival.t * bool) :=
  let state :=
    if time.IsZero (BusState.PassedAt state)
    then BusState.with_PassedAt (now up) state else state in
  match getSeatsAfterFromBusLocation up (RouteConfig.RouteID cfg) plateNo with
  | Some seatsAfter =>
      saveArrival
        (BusArrival.mk (RouteConfig.ID cfg) plateNo (BusState.LastSeenAt state)
           (Some (BusState.SeatsBefore state)) (Some seatsAfter))
        state
  | None =>
      let state := BusState.with_RetryCount (wrap_int (BusState.RetryCount state + 1)) state in
      let timeSincePassed := time.Sub (now up) (BusState.PassedAt state) in
      if timeSincePassed <? 2 * time.Minute then (state, [])
      else
        saveArrival
          (BusArrival.mk (RouteConfig.ID cfg) plateNo (BusState.LastSeenAt state)
             (Some (BusState.SeatsBefore state)) None)
          state
  end.

(** What the body of the first [for plateNo, state := range busStates]
    does to an entry whose plate is not in the snapshot: the entry after
    the passage block ([None] when the ten-minute rule deletes it) and the
    [Create] calls made. *)
Definition passedEntry (plateNo : string) (state : BusState.t)
    : option BusState.t * list (BusArrival.t * bool) :=
  let '(state, made) :=
    if BusState.Recorded state then (state, []) else recordPassage plateNo state in
  if time.Sub (now up) (BusState.LastSeenAt state) >? 10 * time.Minute
  then (None, made) else (Some state, made).

(** Body of the first [range busStates] loop.  [state] is a pointer into
    the map, so the writes of the passage block are writes to the map. *)
Definition checkPassed (currentBuses : gset string) (plateNo : string)
    (state : BusState.t) (acc : gmap string BusState.t * list (BusArrival.t * bool))
    : gmap string BusState.t * list (BusArrival.t * bool) :=
  let '(busStates, calls) := acc in
  if decide (plateNo ∈ currentBuses) then acc
  else
    match passedEntry plateNo state with
    | (Some state, made) => (<[plateNo := state]> busStates, calls ++ made)
    | (None, made) => (delete plateNo busStates, calls ++ made)
    end.

(** Body of the second [range busStates] loop. *)
Definition cleanOld (plateNo : string) (state : BusState.t)
    (busStates : gmap string BusState.t) : gmap string BusState.t :=
  if time.Sub (now up) (BusState.FirstSeenAt state) >? 1 * time.Hour
  then delete plateNo busStates else busStates.

(** [collectData(cfg, busStates)]: the map after the call and the [Create]
    calls made, in the order they were made. *)
Definition collectData (busStates : gmap string BusState.t)
    : gmap string BusState.t * list (BusArrival.t * bool) :=
  match GetRouteArrivalList up with
  | None => (busStates, [])
  | Some arrivals =>
      let '(busStates, currentBuses) := foldl processArrival (busStates, ∅) arrivals in
      let '(busStates, calls) :=
        map_fold (checkPassed currentBuses) (busStates, []) busStates in
      (map_fold cleanOld busStates busStates, calls)
  end.

End CollectData.

(** A sequence of collection cycles: the map and the calls after each. *)
Fixpoint runTicks (cfg : RouteConfig.t) (ups : list Upstream)
    (busStates : gmap string BusState.t)
    : list (gmap string BusState.t * list (BusArrival.t * bool)) :=
  match ups with
  | [] => []
  | up :: rest =>
      let r := collectData cfg up busStates in
      r :: runTicks cfg rest r.1
  end.

(** The map after a sequence of collection cycles. *)
Definition afterTicks (cfg : RouteConfig.t) (ups : list Upstream)
    (busStates : gmap string BusState.t) : gmap string BusState.t :=
  foldl (λ m up, (collectData cfg up m).1) busStates ups.

(** ** [collectForConfig]: the worker loop

    Each iteration of the [for { select { ... } }] takes one signal. *)
Inductive Signal :=
  | ctxDone
  | stopChanClosed
  | tickerC (hour : Z) (up : Upstream).

Record Worker := {
  returned : bool;
  busStates : gmap string BusState.t;
  created : list (BusArrival.t * bool)
}.

(** The loop from a given map; [created] collects the [Create] calls made
    so far.  When the signals run out the worker is still waiting in its
    [select] ([returned = false]). *)
Fixpoint workerLoop (startHour endHour : Z) (cfg : RouteConfig.t)
    (signals : list Signal) (busStates : gmap string BusState.t)
    (created : list (BusArrival.t * bool)) : Worker :=
  match signals with
  | [] => {| returned := false; busStates := busStates; created := created |}
  | ctxDone :: _ => {| returned := true; busStates := busStates; created := created |}
  | stopChanClosed :: _ =>
      {| returned := true; busStates := busStates; created := created |}
  | tickerC hour up :: rest =>
      if isWithinTimeWindow startHour endHour hour then
        let r := collectData cfg up busStates in
        workerLoop startHour endHour cfg rest r.1 (created ++ r.2)
      else workerLoop startHour endHour cfg rest busStates created
  end.

Definition collectForConfig (startHour endHour : Z) (cfg : RouteConfig.t)
    (signals : list Signal) : Worker :=
  workerLoop startHour endHour cfg signals ∅ [].

(** ** The supervisor: [Collector]

    The repositories and API clients are the collaborators whose answers
    are inputs ([Upstream], the [found] argument of [syncConfigs]); the
    mutex and the wait group are synchronisation only.  What the
    supervisor does to goroutines and channels is its list of effects.
    Channels, contexts and cancel functions carry no identity here: of
    [mainCtx] and [mainCancel] the model keeps whether they are nil. *)

Inductive chan := makeChan.
Inductive Context := withCancel.
Inductive CancelFunc := cancelFunc.

Module configCollector.
Record t := mk {
  cfg : RouteConfig.t;
  stopChan : chan
}.
End configCollector.

Module Collector.
Record t := mk {
  intervalMs : Z;
  collectors : gmap Z configCollector.t;
  mainCtx : option Context;
  mainCancel : option CancelFunc;
  startHour : Z;
  endHour : Z
}.

Definition with_collectors (v : gmap Z configCollector.t) (c : t) : t :=
  mk (intervalMs c) v (mainCtx c) (mainCancel c) (startHour c) (endHour c).
Definition with_main (ctx : option Context) (cancel : option CancelFunc) (c : t) : t :=
  mk (intervalMs c) (collectors c) ctx cancel (startHour c) (endHour c).
End Collector.

Inductive Effect :=
  (** [c.mainCancel()] *)
  | cancelMain
  (** [close(cc.stopChan)] for the collector registered under the ID *)
  | closeStopChan (id : Z)
  (** [c.wg.Add(1); go c.collectForConfig(cc)] for the configuration *)
  | goCollectForConfig (id : Z)
  (** the reload goroutine of [Start] *)
  | goReload
  (** [c.wg.Wait()] *)
  | wgWait.

Definition IsRunning (c : Collector.t) : bool :=
  match Collector.mainCancel c with
  | Some _ => true
  | None => false
  end.

Definition NewCollector (intervalMs startHour endHour : Z) : Collector.t :=
  Collector.mk intervalMs ∅ None None startHour endHour.

(** [activeIDs]: the set built by the first loop of [syncConfigs]. *)
Definition activeIDsOf (configs : list RouteConfig.t) : gset Z :=
  foldl (λ activeIDs cfg, {[RouteConfig.ID cfg]} ∪ activeIDs) ∅ configs.

(** Body of [for id, cc := range c.collectors] in [syncConfigs]. *)
Definition stopInactive (activeIDs : gset Z) (id : Z) (cc : configCollector.t)
    (acc : gmap Z configCollector.t * list Effect)
    : gmap Z configCollector.t * list Effect :=
  if decide (id ∈ activeIDs) then acc
  else (delete id acc.1, acc.2 ++ [closeStopChan id]).

(** Body of the second [for _, cfg := range configs] in [syncConfigs]. *)
Definition startNew (acc : gmap Z configCollector.t * list Effect)
    (cfg : RouteConfig.t) : gmap Z configCollector.t * list Effect :=
  match acc.1 !! RouteConfig.ID cfg with
  | Some _ => acc
  | None =>
      (<[RouteConfig.ID cfg := configCollector.mk cfg makeChan]> acc.1,
       acc.2 ++ [goCollectForConfig (RouteConfig.ID cfg)])
  end.

(** [syncConfigs]; [found] is the answer of [configRepo.FindActive()],
    [None] standing for a non-nil [err]. *)
Definition syncConfigs (found : option (list RouteConfig.t)) (c : Collector.t)
    : Collector.t * list Effect :=
  match found with
  | None => (c, [])
  | Some configs =>
      let activeIDs := activeIDsOf configs in
      let stopped :=
        map_fold (stopInactive activeIDs) (Collector.collectors c, [])
          (Collector.collectors c) in
      let started := foldl startNew stopped configs in
      (Collector.with_collectors started.1 c, started.2)
  end.

Definition Start (found : option (list RouteConfig.t)) (c : Collector.t)
    : Collector.t * list Effect :=
  let c := Collector.with_main (Some withCancel) (Some cancelFunc) c in
  let '(c, effects) := syncConfigs found c in
  (c, effects ++ [goReload]).

(** Body of [for id, cc := range c.collectors] in [Stop]. *)
Definition closeAndDelete (id : Z) (cc : configCollector.t)
    (acc : gmap Z configCollector.t * list Effect)
    : gmap Z configCollector.t * list Effect :=
  (delete id acc.1, acc.2 ++ [closeStopChan id]).

Definition Stop (c : Collector.t) : Collector.t * list Effect :=
  match Collector.mainCancel c with
  | None => (c, [])
  | Some _ =>
      let closed :=
        map_fold closeAndDelete (Collector.collectors c, [cancelMain])
          (Collector.collectors c) in
      (Collector.with_main None None (Collector.with_collectors closed.1 c),
       closed.2 ++ [wgWait])
  end.

(** ** Vocabulary of the properties *)

(** The [Create] calls of a log that carry the plate [p]. *)
Definition callsFor (p : string) (calls : list (BusArrival.t * bool))
    : list (BusArrival.t * bool) :=
  filter (λ c, BusArrival.BusNumber c.1 = p) calls.

(** The calls of a log that the persistence sink accepted. *)
Definition accepted (calls : list (BusArrival.t * bool)) : list (BusArrival.t * bool) :=
  filter (λ c, c.2 = true) calls.

(** The readings of plate [p] in a snapshot, in order; the loop over the
    snapshot skips readings with an empty plate. *)
Definition sightings (p : string) (arrivals : list BusArrivalInfo.t)
    : list BusArrivalInfo.t :=
  if decide (p = "") then []
  else filter (λ a, BusArrivalInfo.PlateNo a = p) arrivals.

(** What one reading does to the entry of its plate. *)
Definition observe (up : Upstream) (o : option BusState.t) (a : BusArrivalInfo.t)
    : option BusState.t :=
  match o with
  | None => Some (newBusState up a)
  | Some state => Some (updateBusState up a state)
  end.

(** The age ceiling of the second [range] loop, on one entry. *)
Definition ceiling (up : Upstream) (state : BusState.t) : option BusState.t :=
  if time.Sub (now up) (BusState.FirstSeenAt state) >? 1 * time.Hour
  then None else Some state.

(** One collection cycle seen from a single plate: the entry of [p] after
    the cycle and the [Create] calls made for [p], from the entry before.
    [collectData_entry] proves that this is what [collectData] does. *)
Definition entryTick (cfg : RouteConfig.t) (up : Upstream) (p : string)
    (o : option BusState.t) : option BusState.t * list (BusArrival.t * bool) :=
  match GetRouteArrivalList up with
  | None => (o, [])
  | Some arrivals =>
      match foldl (observe up) o (sightings p arrivals) with
      | None => (None, [])
      | Some state =>
          match sightings p arrivals with
          | [] =>
              let r := passedEntry cfg up p state in
              (r.1 ≫= ceiling up, r.2)
          | _ :: _ => (ceiling up state, [])
          end
      end
  end.


(** Number of false-to-true steps in a sequence of flags that follows [b]. *)
Fixpoint risings (b : bool) (l : list bool) : nat :=
  match l with
  | [] => 0%nat
  | b' :: rest => ((if negb b && b' then 1 else 0) + risings b' rest)%nat
  end.


(** The [Recorded] flag of an optional entry. *)
Definition flagOf (o : option BusState.t) : bool :=
  match o with
  | Some state => BusState.Recorded state
  | None => false
  end.

(** The accepted [Create] calls for plate [p] over a run of cycles. *)
Definition acceptedFor (p : string)
    (run : list (gmap string BusState.t * list (BusArrival.t * bool)))
    : list (BusArrival.t * bool) :=
  accepted (callsFor p (concat (snd <$> run))).

(** The [Recorded] flag of plate [p] in a map ([false] when untracked). *)
Definition flag (p : string) (m : gmap string BusState.t) : bool := flagOf (m !! p).

(** A run of cycles stays within the life of one entry of plate [p]: the
    plate is tracked after every cycle except possibly the last, so no
    cycle other than the first can be the one that creates the entry. *)
Fixpoint oneEntry (p : string)
    (run : list (gmap string BusState.t * list (BusArrival.t * bool))) : bool :=
  match run with
  | [] => true
  | r :: rest =>
      match rest with
      | [] => true
      | _ :: _ => (if r.1 !! p is Some _ then true else false) && oneEntry p rest
      end
  end.

(** In the cycle [up] the plate [p] is missing from the snapshot and its
    confirmation lookup yields nothing. *)
Definition unconfirmed (cfg : RouteConfig.t) (p : string) (up : Upstream) : Prop :=
  (∃ arrivals, GetRouteArrivalList up = Some arrivals ∧ sightings p arrivals = [])
  ∧ getSeatsAfterFromBusLocation up (RouteConfig.RouteID cfg) p = None.

(** Neither cleanup rule applies to the entry [state] at the time of the
    cycle [up]. *)
Definition kept (state : BusState.t) (up : Upstream) : Prop :=
  time.Sub (now up) (BusState.LastSeenAt state) ≤ 10 * time.Minute
  ∧ time.Sub (now up) (BusState.FirstSeenAt state) ≤ 1 * time.Hour.





#[global] Instance Effect_eq_dec : EqDecision Effect.
Proof. solve_decision. Defined.

(** How often an effect list closes the stop channel of collector [id],
    and how often it starts a worker for configuration [id]. *)
Definition stopsOf (id : Z) (effects : list Effect) : list Effect :=
  filter (λ e, e = closeStopChan id) effects.

Definition startsOf (id : Z) (effects : list Effect) : list Effect :=
  filter (λ e, e = goCollectForConfig id) effects.

(** ** Concrete inputs *)

Definition cfg0 : RouteConfig.t :=
  RouteConfig.mk 1 "R100" "100" "S200" "Central" "" 3 true 0 0.

Definition reading (plate : string) (stopsAway seats : Z) : BusArrivalInfo.t :=
  BusArrivalInfo.mk 100 200 3 plate seats 0 stopsAway 0.

Definition located (plate : string) (seats : Z) : BusLocation.t :=
  BusLocation.mk 100 201 4 plate 0 seats "Next".

(** A collection cycle at second [sec] whose snapshot is [arrivals], whose
    location calls all answer [locations] and whose [Create] calls all
    return [ok]. *)
Definition poll (sec : Z) (arrivals : list BusArrivalInfo.t)
    (locations : option (list BusLocation.t)) (ok : bool) : Upstream :=
  {| now := sec * time.Second;
     GetRouteArrivalList := Some arrivals;
     GetBusLocations := λ _ _, locations;
     Create := λ _, ok |}.

(** A collection cycle whose snapshot fetch fails. *)
Definition outage (sec : Z) : Upstream :=
  {| now := sec * time.Second;
     GetRouteArrivalList := None;
     GetBusLocations := λ _ _, None;
     Create := λ _, true |}.

(** A plate seen once and then missing from the snapshot eleven minutes
    later, while the location source is unreachable. *)
Definition seenOnce : gmap string BusState.t :=
  afterTicks cfg0 [poll 1000 [reading "A1" 1 6] None true] ∅.

Definition elevenMinutesLater : Upstream := poll 1660 [] None true.

(** The scenario of the specification: two approaching readings, the
    plate disappears, the location source answers the sentinel and then 4
    seats. *)
Definition journey : list Upstream :=
  [poll 1000 [reading "A1" 3 10] None true;
   poll 1030 [reading "A1" 1 6] None true;
   poll 1060 [] (Some [located "A1" (-1)]) true;
   poll 1090 [] (Some [located "A1" 4]) true;
   poll 1120 [] (Some [located "A1" 4]) true].



(** A plate last seen at second 1060 with 6 seats. *)
Definition arrived : gmap string BusState.t :=
  {["A1" := newBusState (poll 1060 [] None true) (reading "A1" 1 6)]}.



(** A second and a third configuration, and a supervisor that runs
    collectors for the first two. *)
Definition cfg2 : RouteConfig.t :=
  RouteConfig.mk 2 "R100" "100" "S300" "Harbor" "" 9 true 0 0.

Definition cfg3 : RouteConfig.t :=
  RouteConfig.mk 3 "R7" "7" "S200" "Central" "" 5 true 0 0.

Definition supervising : Collector.t :=
  (Start (Some [cfg0; cfg2]) (NewCollector 30000 0 0)).1.

(** ** Package [service]: what [GetRouteArrivalList] makes of a reply

    The HTTP round trip and the JSON decoding are inputs: a reply is
    either a failed call, or a status code with a body that could not be
    read, could not be decoded, or was decoded into the response struct. *)

Inductive Body (A : Type) :=
  | readFailed
  | unmarshalFailed
  | decoded (a : A).
Arguments readFailed {A}.
Arguments unmarshalFailed {A}.
Arguments decoded {A} a.

Inductive HttpReply (A : Type) :=
  | doFailed
  | replied (statusCode : Z) (body : Body A).
Arguments doFailed {A}.
Arguments replied {A} statusCode body.

(** The errors the client returns, by the place that makes them. *)
Inductive ClientError :=
  | errCall
  | errStatus (statusCode : Z)
  | errRead
  | errParse
  | errAPI (resultCode : Z) (resultMsg : string).

Module BusArrivalItem.
Record t := mk {
  PlateNo1 : string;
  PlateNo2 : string;
  PredictTime1 : Z;
  PredictTime2 : Z;
  LocationNo1 : Z;
  LocationNo2 : Z;
  RemainSeatCnt1 : Z;
  RemainSeatCnt2 : Z;
  LowPlate1 : Z;
  LowPlate2 : Z;
  RouteID : Z;
  StationID : Z
}.
End BusArrivalItem.

Module ArrivalItemResponse.
Record t := mk {
  ResultCode : Z;
  ResultMsg : string;
  BusArrivalItem : BusArrivalItem.t
}.
End ArrivalItemResponse.

Module OpenAPIClient.
(** The two [append]s at the end of [GetRouteArrivalList]. *)
Definition arrivalsOfItem (item : BusArrivalItem.t) : list BusArrivalInfo.t :=
  (if decide (BusArrivalItem.PlateNo1 item = "") then []
   else [BusArrivalInfo.mk (BusArrivalItem.RouteID item) (BusArrivalItem.StationID item)
           0 (BusArrivalItem.PlateNo1 item) (BusArrivalItem.RemainSeatCnt1 item)
           (BusArrivalItem.PredictTime1 item) (BusArrivalItem.LocationNo1 item)
           (BusArrivalItem.LowPlate1 item)])
  ++ (if decide (BusArrivalItem.PlateNo2 item = "") then []
      else [BusArrivalInfo.mk (BusArrivalItem.RouteID item) (BusArrivalItem.StationID item)
              0 (BusArrivalItem.PlateNo2 item) (BusArrivalItem.RemainSeatCnt2 item)
              (BusArrivalItem.PredictTime2 item) (BusArrivalItem.LocationNo2 item)
              (BusArrivalItem.LowPlate2 item)]).

(** [GetRouteArrivalList], from the reply of the HTTP call on. *)
Definition GetRouteArrivalList (reply : HttpReply ArrivalItemResponse.t)
    : ClientError + list BusArrivalInfo.t :=
  match reply with
  | doFailed => inl errCall
  | replied statusCode body =>
      if decide (statusCode ≠ 200) then inl (errStatus statusCode)
      else
        match body with
        | readFailed => inl errRead
        | unmarshalFailed => inl errParse
        | decoded jsonResp =>
            if decide (ArrivalItemResponse.ResultCode jsonResp ≠ 0) then
              inl (errAPI (ArrivalItemResponse.ResultCode jsonResp)
                     (ArrivalItemResponse.ResultMsg jsonResp))
            else inr (arrivalsOfItem (ArrivalItemResponse.BusArrivalItem jsonResp))
        end
  end.
End OpenAPIClient.

(** The snapshot the collector gets from a reply: it only looks at
    whether [err] is nil. *)
Definition snapshotOf (reply : HttpReply ArrivalItemResponse.t)
    : option (list BusArrivalInfo.t) :=
  match OpenAPIClient.GetRouteArrivalList reply with
  | inl _ => None
  | inr arrivals => Some arrivals
  end.

(** ** Package [service]: [GBISClient.GetBusLocations] *)

Module LocationListResponse.
Record t := mk {
  ResultCode : Z;
  ResultMsg : string;
  BusLocationList : list BusLocation.t
}.
End LocationListResponse.

Module GBISClient.
(** [makeRequest]; the bytes it returns are given by what [json.Unmarshal]
    makes of them in the caller: [None] when they do not decode. *)
Definition makeRequest {A : Type} (reply : HttpReply A) : ClientError + option A :=
  match reply with
  | doFailed => inl errCall
  | replied statusCode body =>
      if decide (statusCode ≠ 200) then inl (errStatus statusCode)
      else
        match body with
        | readFailed => inl errRead
        | unmarshalFailed => inr None
        | decoded a => inr (Some a)
        end
  end.

(** [GetBusLocations] *)
Definition GetBusLocations (reply : HttpReply LocationListResponse.t)
    : ClientError + list BusLocation.t :=
  match makeRequest reply with
  | inl err => inl err
  | inr None => inl errParse
  | inr (Some jsonResp) =>
      if decide (LocationListResponse.ResultCode jsonResp ≠ 0) then
        inl (errAPI (LocationListResponse.ResultCode jsonResp)
               (LocationListResponse.ResultMsg jsonResp))
      else inr (LocationListResponse.BusLocationList jsonResp)
  end.
End GBISClient.

(** The locations the collector gets from a reply: it only looks at
    whether [err] is nil. *)
Definition locationsOf (reply : HttpReply LocationListResponse.t)
    : option (list BusLocation.t) :=
  match GBISClient.GetBusLocations reply with
  | inl _ => None
  | inr locations => Some locations
  end.

(** ** Package [config]: [LoadFromSettings] *)

Module AppSettings.
Record t := mk {
  StoragePath : string;
  ServiceKey : string;
  StartHour : Z;
  EndHour : Z;
  IntervalMs : Z
}.
End AppSettings.

Module ServerConfig.
Record t := mk { Port : Z; Mode : string }.
End ServerConfig.

Module DatabaseConfig.
Record t := mk {
  Type_ : string;
  FilePath : string;
  Host : string;
  Port : Z;
  Username : string;
  Password : string;
  Database : string
}.

(** [DriverName] *)
Definition DriverName (d : t) : string :=
  if decide (Type_ d = "sqlite") then "sqlite3" else "mysql".
End DatabaseConfig.

Module OpenAPIConfig.
Record t := mk { BaseURL : string; ServiceKey : string }.
End OpenAPIConfig.

Module CollectorConfig.
Record t := mk { IntervalMs : Z; RetryMaxAttempts : Z; RetryBackoffMs : Z }.
End CollectorConfig.

Module LoggingConfig.
Record t := mk { Level : string; Format : string }.
End LoggingConfig.

Module Config.
Record t := mk {
  Server : ServerConfig.t;
  Database : DatabaseConfig.t;
  OpenAPI : OpenAPIConfig.t;
  Collector : CollectorConfig.t;
  Logging : LoggingConfig.t
}.
End Config.

(** [LoadFromSettings]; [Join] stands for [filepath.Join].  The fields the
    Go literal does not name take their zero values. *)
Definition LoadFromSettings (Join : string → string → string)
    (settings : AppSettings.t) : Config.t :=
  let dbPath := Join (AppSettings.StoragePath settings) "bus_history.db" in
  let interval := AppSettings.IntervalMs settings in
  let interval := if interval <=? 0 then 30000 else interval in
  Config.mk
    (ServerConfig.mk 0 "")
    (DatabaseConfig.mk "sqlite" dbPath "" 0 "" "" "")
    (OpenAPIConfig.mk "https://apis.data.go.kr/6410000/busarrivalservice/v2"
       (AppSettings.ServiceKey settings))
    (CollectorConfig.mk interval 3 1000)
    (LoggingConfig.mk "debug" "json").

(** ** Package [main]: the collector controls of [App]

    Of the [App] struct the controls use the collector and the
    configuration repository; both are nil until the services are
    initialized. *)

(** The collector that [initializeServices] constructs. *)
Definition initialCollector (Join : string → string → string)
    (settings : AppSettings.t) : Collector.t :=
  NewCollector
    (CollectorConfig.IntervalMs (Config.Collector (LoadFromSettings Join settings)))
    (AppSettings.StartHour settings) (AppSettings.EndHour settings).

Module App.
Record t := mk {
  configRepo : bool;
  collector : option Collector.t
}.
End App.

Inductive AppError :=
  | errNotInitialized
  | errDBNotInitialized
  | errRepository
  | errMkdirAll
  | errOpen.

(** What the controls do besides changing the [App]: the effects of the
    collector, and the goroutine of [NotifySync]. *)
Inductive AppEffect :=
  | ofCollector (e : Effect)
  | goSyncConfigs.

(** [initializeServices], as far as the collector and the repository go;
    [mkdirAll] and [sqlOpen] tell whether [os.MkdirAll] and [sql.Open]
    returned a nil error.  The collector that is stopped stays in the
    [App] until the new one is assigned. *)
Definition initializeServices (Join : string → string → string)
    (settings : AppSettings.t) (mkdirAll sqlOpen : bool) (a : App.t)
    : App.t * list AppEffect * option AppError :=
  let stopped :=
    match App.collector a with
    | None => (None, [])
    | Some c => let r := Stop c in (Some r.1, ofCollector <$> r.2)
    end in
  if negb mkdirAll then
    (App.mk (App.configRepo a) stopped.1, stopped.2, Some errMkdirAll)
  else if negb sqlOpen then
    (App.mk (App.configRepo a) stopped.1, stopped.2, Some errOpen)
  else
    (App.mk true (Some (initialCollector Join settings)), stopped.2, None).

(** [StartCollection]; [found] is what [FindActive] answers to the
    [syncConfigs] inside [Start].  [Start] always returns nil. *)
Definition StartCollection (found : option (list RouteConfig.t)) (a : App.t)
    : App.t * list AppEffect * option AppError :=
  match App.collector a with
  | None => (a, [], Some errNotInitialized)
  | Some c =>
      let r := Start found c in
      (App.mk (App.configRepo a) (Some r.1), ofCollector <$> r.2, None)
  end.

Definition StopCollection (a : App.t) : App.t * list AppEffect :=
  match App.collector a with
  | None => (a, [])
  | Some c =>
      let r := Stop c in
      (App.mk (App.configRepo a) (Some r.1), ofCollector <$> r.2)
  end.

Definition GetCollectionStatus (a : App.t) : bool :=
  match App.collector a with
  | None => false
  | Some c => IsRunning c
  end.

(** [CreateConfig]: [created] is the answer of [configRepo.Create], the
    new row ID when the returned error is nil; the configuration returned
    is the one behind the pointer [cfg] after the call. *)
Definition CreateConfig (created : option Z) (found : option (list RouteConfig.t))
    (a : App.t) (cfg : RouteConfig.t)
    : App.t * RouteConfig.t * list AppEffect * option AppError :=
  if negb (App.configRepo a) then (a, cfg, [], Some errDBNotInitialized)
  else
    let cfg :=
      RouteConfig.mk (RouteConfig.ID cfg) (RouteConfig.RouteID cfg)
        (RouteConfig.RouteName cfg) (RouteConfig.StationID cfg)
        (RouteConfig.StationName cfg) (RouteConfig.Direction cfg)
        (RouteConfig.StaOrder cfg) true
        (RouteConfig.CreatedAt cfg) (RouteConfig.UpdatedAt cfg) in
    match created with
    | None => (a, cfg, [], Some errRepository)
    | Some id =>
        let cfg :=
          RouteConfig.mk id (RouteConfig.RouteID cfg)
            (RouteConfig.RouteName cfg) (RouteConfig.StationID cfg)
            (RouteConfig.StationName cfg) (RouteConfig.Direction cfg)
            (RouteConfig.StaOrder cfg) (RouteConfig.IsActive cfg)
            (RouteConfig.CreatedAt cfg) (RouteConfig.UpdatedAt cfg) in
        match App.collector a with
        | None => (a, cfg, [], None)
        | Some c =>
            let r := if IsRunning c then (c, []) else Start found c in
            (App.mk (App.configRepo a) (Some r.1),
             cfg, (ofCollector <$> r.2) ++ [goSyncConfigs], None)
        end
    end.

(** ** Further vocabulary *)

(** Every entry of the map carries its own key as [PlateNo]. *)
Definition plateKeyed (m : gmap string BusState.t) : Prop :=
  map_Forall (λ p state, BusState.PlateNo state = p) m.

(** The timestamps of every entry are in order and not after [t]. *)
Definition timely (t : Z) (m : gmap string BusState.t) : Prop :=
  map_Forall (λ _ state,
    BusState.FirstSeenAt state ≤ BusState.LastSeenAt state
    ∧ BusState.LastSeenAt state ≤ t) m.

(** A tick taken by the [select] of a worker: the hour of the day and
    what the outside world answers during its cycle. *)
Definition tickOf (t : Z * Upstream) : Signal := tickerC t.1 t.2.

(** The cycles of the ticks that fall inside the time window. *)
Definition inWindow (startHour endHour : Z) (ticks : list (Z * Upstream))
    : list Upstream :=
  snd <$> filter (λ t, isWithinTimeWindow startHour endHour t.1 = true) ticks.

(** The hours of the day at which the window is open. *)
Definition openHours (startHour endHour : Z) : list Z :=
  filter (λ h, isWithinTimeWindow startHour endHour h = true) (seqZ 0 24).

(** The length in hours of the window, read off the two settings. *)
Definition windowLength (startHour endHour : Z) : Z :=
  if (startHour =? 0) && (endHour =? 0) then 24
  else if startHour <? endHour then endHour - startHour
  else if endHour <? startHour then 24 - startHour + endHour
  else 1.

(** ** Further concrete inputs *)

(** The scenario of the specification after its two approaching readings,
    and after the cycle in which the plate is first missing. *)
Definition approaching : gmap string BusState.t :=
  afterTicks cfg0 (take 2 journey) ∅.

Definition justPassed : gmap string BusState.t :=
  afterTicks cfg0 (take 3 journey) ∅.

(** The entry of plate A1 in [approaching]. *)
Definition approachingA1 : BusState.t :=
  BusState.mk "A1" 1000000000000 1030000000000 6 1 false 0 0 0.

(** The entry of plate A1 in [justPassed]. *)
Definition waitingA1 : BusState.t :=
  BusState.mk "A1" 1000000000000 1030000000000 6 1 false 0 1060000000000 1.

(** A reply of the arrival service with one vehicle in the first slot. *)
Definition oneVehicle : HttpReply ArrivalItemResponse.t :=
  replied 200 (decoded (ArrivalItemResponse.mk 0 "OK"
    (BusArrivalItem.mk "A1" "" 4 0 2 0 17 0 1 0 100 200))).

Definition slashJoin (dir file : string) : string := dir +:+ "/" +:+ file.

(** A reply of the location service with two vehicles on the route. *)
Definition twoLocations : HttpReply LocationListResponse.t :=
  replied 200 (decoded (LocationListResponse.mk 0 "OK"
    [located "B2" 3; located "A1" 4])).

(** A source whose location lookups are all answered by that reply. *)
Definition confirming : Upstream :=
  {| now := 1090 * time.Second;
     GetRouteArrivalList := Some [];
     GetBusLocations := λ _ _, locationsOf twoLocations;
     Create := λ _, true |}.

(** * Properties *)

(** ** Arithmetic of [time] and [int] *)

Lemma Sub_self t : time.Sub t t = 0.
Proof. unfold time.Sub, time.minDuration, time.maxDuration. lia. Qed.


Lemma wrap_int_small z :
  -9223372036854775808 ≤ z < 9223372036854775808 → wrap_int z = z.
Proof. intros H. unfold wrap_int. rewrite Z.mod_small; lia. Qed.

(** ** The three loops of [collectData], one plate at a time *)

Section Loops.
Variable cfg : RouteConfig.t.
Variable up : Upstream.
Implicit Types (m : gmap string BusState.t) (cur : gset string) (p : string).

Lemma processArrival_step m cur a p :
  (processArrival up (m, cur) a).1 !! p =
    (if decide (p ≠ "" ∧ BusArrivalInfo.PlateNo a = p)
     then observe up (m !! p) a else m !! p)
  ∧ (p ∈ (processArrival up (m, cur) a).2 ↔
     p ∈ cur ∨ (p ≠ "" ∧ BusArrivalInfo.PlateNo a = p)).
Proof.
  unfold processArrival.
  destruct (decide (BusArrivalInfo.PlateNo a = "")) as [He|He]; simpl.
  - split; [|naive_solver].
    case_decide as Hd; [|done]. destruct Hd as [Hne <-]. done.
  - destruct (decide (BusArrivalInfo.PlateNo a = p)) as [<-|Hp].
    + rewrite decide_True by done. unfold observe.
      destruct (m !! BusArrivalInfo.PlateNo a); simpl;
        rewrite lookup_insert_eq; (split; [done|set_solver]).
    + rewrite decide_False by naive_solver.
      destruct (m !! BusArrivalInfo.PlateNo a); simpl;
        rewrite lookup_insert_ne by done; (split; [done|set_solver]).
Qed.

Lemma sightings_cons p a arrivals :
  sightings p (a :: arrivals) =
    if decide (p ≠ "" ∧ BusArrivalInfo.PlateNo a = p)
    then a :: sightings p arrivals else sightings p arrivals.
Proof.
  unfold sightings. destruct (decide (p = "")) as [->|Hp].
  - rewrite decide_False by naive_solver. done.
  - rewrite filter_cons. destruct (decide (BusArrivalInfo.PlateNo a = p)).
    + rewrite decide_True by done. done.
    + rewrite decide_False by naive_solver. done.
Qed.

Lemma processArrival_fold arrivals : ∀ m cur p,
  (foldl (processArrival up) (m, cur) arrivals).1 !! p =
    foldl (observe up) (m !! p) (sightings p arrivals)
  ∧ (p ∈ (foldl (processArrival up) (m, cur) arrivals).2 ↔
     p ∈ cur ∨ sightings p arrivals ≠ []).
Proof.
  induction arrivals as [|a arrivals IH]; intros m cur p.
  - simpl. unfold sightings. destruct (decide (p = "")); simpl; naive_solver.
  - cbn [foldl]. destruct (processArrival up (m, cur) a) as [m1 cur1] eqn:E.
    pose proof (processArrival_step m cur a p) as [H1 H2]. rewrite E in H1, H2.
    simpl in H1, H2. destruct (IH m1 cur1 p) as [IH1 IH2].
    rewrite IH1, IH2, H1, H2, sightings_cons.
    case_decide as Hd; simpl; [split; [done|naive_solver]|].
    split; [done|]. naive_solver.
Qed.

Lemma saveArrival_calls busArrival state :
  (saveArrival up busArrival state).2 = [(busArrival, Create up busArrival)].
Proof. unfold saveArrival. by destruct (Create up busArrival). Qed.

Lemma recordPassage_plate p state c :
  c ∈ (recordPassage cfg up p state).2 → BusArrival.BusNumber c.1 = p.
Proof.
  unfold recordPassage.
  destruct (getSeatsAfterFromBusLocation _ _ _); [|case_match];
    rewrite ?saveArrival_calls; simpl; intros Hc;
    try (apply list_elem_of_singleton in Hc; by subst c); by inversion Hc.
Qed.

Lemma passedEntry_plate p state c :
  c ∈ (passedEntry cfg up p state).2 → BusArrival.BusNumber c.1 = p.
Proof.
  unfold passedEntry. destruct (BusState.Recorded state) eqn:Hr.
  - case_match; simpl; intros Hc; by inversion Hc.
  - destruct (recordPassage cfg up p state) as [s1 made] eqn:E.
    pose proof (recordPassage_plate p state c) as H. rewrite E in H.
    case_match; simpl; exact H.
Qed.

Lemma callsFor_app p l1 l2 : callsFor p (l1 ++ l2) = callsFor p l1 ++ callsFor p l2.
Proof. apply filter_app. Qed.

Lemma callsFor_own p l :
  (∀ c, c ∈ l → BusArrival.BusNumber c.1 = p) → callsFor p l = l.
Proof.
  intros H. unfold callsFor. induction l as [|c l IH]; [done|].
  rewrite filter_cons_True by (apply H; left).
  f_equal. apply IH. intros c' Hc'. apply H. by right.
Qed.

Lemma callsFor_other p q l :
  p ≠ q → (∀ c, c ∈ l → BusArrival.BusNumber c.1 = q) → callsFor p l = [].
Proof.
  intros Hne H. unfold callsFor. induction l as [|c l IH]; [done|].
  rewrite filter_cons_False.
  - apply IH. intros c' Hc'. apply H. by right.
  - rewrite (H c) by left. congruence.
Qed.

Lemma checkPassed_fold cur base m : ∀ p,
  (map_fold (checkPassed cfg up cur) (base, []) m).1 !! p =
    match m !! p with
    | None => base !! p
    | Some state =>
        if decide (p ∈ cur) then base !! p else (passedEntry cfg up p state).1
    end
  ∧ callsFor p (map_fold (checkPassed cfg up cur) (base, []) m).2 =
    match m !! p with
    | None => []
    | Some state => if decide (p ∈ cur) then [] else (passedEntry cfg up p state).2
    end.
Proof.
  apply (map_fold_weak_ind (λ r m', ∀ p,
    r.1 !! p = match m' !! p with
               | None => base !! p
               | Some state =>
                   if decide (p ∈ cur) then base !! p
                   else (passedEntry cfg up p state).1
               end
    ∧ callsFor p r.2 = match m' !! p with
                       | None => []
                       | Some state =>
                           if decide (p ∈ cur) then []
                           else (passedEntry cfg up p state).2
                       end)).
  - intros p. by rewrite lookup_empty.
  - intros k state m' [bs calls] Hk IH p. destruct (IH p) as [IH1 IH2].
    simpl in IH1, IH2. unfold checkPassed.
    destruct (decide (k = p)) as [->|Hkp].
    + rewrite lookup_insert_eq. rewrite Hk in IH1, IH2.
      destruct (decide (p ∈ cur)); [done|].
      pose proof (passedEntry_plate p state) as Hown.
      destruct (passedEntry cfg up p state) as [[s1|] made]; simpl in *;
        rewrite callsFor_app, IH2, callsFor_own by done;
        [rewrite lookup_insert_eq|rewrite lookup_delete_eq]; done.
    + rewrite lookup_insert_ne by done.
      destruct (decide (k ∈ cur)); [done|].
      pose proof (passedEntry_plate k state) as Hown.
      destruct (passedEntry cfg up k state) as [[s1|] made]; simpl in *;
        rewrite callsFor_app, IH2, (callsFor_other p k) by done;
        [rewrite lookup_insert_ne by done|rewrite lookup_delete_ne by done];
        rewrite app_nil_r; done.
Qed.

Lemma cleanOld_fold base m : ∀ p,
  map_fold (cleanOld up) base m !! p =
    match m !! p with
    | None => base !! p
    | Some state =>
        if time.Sub (now up) (BusState.FirstSeenAt state) >? 1 * time.Hour
        then None else base !! p
    end.
Proof.
  apply (map_fold_weak_ind (λ r m', ∀ p,
    r !! p = match m' !! p with
             | None => base !! p
             | Some state =>
                 if time.Sub (now up) (BusState.FirstSeenAt state) >? 1 * time.Hour
                 then None else base !! p
             end)).
  - intros p. by rewrite lookup_empty.
  - intros k state m' r Hk IH p. unfold cleanOld.
    destruct (decide (k = p)) as [->|Hkp].
    + rewrite lookup_insert_eq. specialize (IH p). rewrite Hk in IH.
      case_match; [apply lookup_delete_eq|done].
    + rewrite lookup_insert_ne by done.
      case_match; [rewrite lookup_delete_ne by done|]; apply IH.
Qed.

End Loops.

Lemma ceiling_bind (up : Upstream) (o : option BusState.t) :
  match o with
  | None => o
  | Some state =>
      if time.Sub (now up) (BusState.FirstSeenAt state) >? 1 * time.Hour
      then None else o
  end = o ≫= ceiling up.
Proof. destruct o as [state|]; [|done]. simpl. unfold ceiling. by case_match. Qed.

(** [collectData], read at one plate, is [entryTick]. *)
Lemma collectData_entry cfg up (m : gmap string BusState.t) p :
  (collectData cfg up m).1 !! p = (entryTick cfg up p (m !! p)).1
  ∧ callsFor p (collectData cfg up m).2 = (entryTick cfg up p (m !! p)).2.
Proof.
  unfold collectData, entryTick.
  destruct (GetRouteArrivalList up) as [arrivals|]; [|done].
  destruct (foldl (processArrival up) (m, ∅) arrivals) as [m1 cur] eqn:E1.
  pose proof (processArrival_fold up arrivals m ∅ p) as [H1 Hcur].
  rewrite E1 in H1, Hcur. simpl in H1, Hcur.
  destruct (map_fold (checkPassed cfg up cur) (m1, []) m1) as [m2 calls] eqn:E2.
  pose proof (checkPassed_fold cfg up cur m1 m1 p) as [H2 Hcalls].
  rewrite E2 in H2, Hcalls. simpl in H2, Hcalls.
  simpl. rewrite cleanOld_fold, ceiling_bind, H2, Hcalls. rewrite <- H1.
  destruct (m1 !! p) as [state|] eqn:Em1; simpl; [|done].
  destruct (sightings p arrivals) as [|a l] eqn:Es.
  - rewrite !decide_False by set_solver. done.
  - rewrite !decide_True by (apply Hcur; right; done). done.
Qed.

Lemma collectData_lookup cfg up (m : gmap string BusState.t) p :
  (collectData cfg up m).1 !! p = (entryTick cfg up p (m !! p)).1.
Proof. apply collectData_entry. Qed.

Lemma collectData_calls cfg up (m : gmap string BusState.t) p :
  callsFor p (collectData cfg up m).2 = (entryTick cfg up p (m !! p)).2.
Proof. apply collectData_entry. Qed.

(** ** Runs of cycles *)

Lemma afterTicks_cons cfg up ups (m : gmap string BusState.t) :
  afterTicks cfg (up :: ups) m = afterTicks cfg ups (collectData cfg up m).1.
Proof. done. Qed.

(** The map after a run is the map of its last cycle. *)
Lemma afterTicks_runTicks cfg ups : ∀ m : gmap string BusState.t,
  afterTicks cfg ups m = default m (fst <$> last (runTicks cfg ups m)).
Proof.
  induction ups as [|up ups IH]; intros m; [done|].
  rewrite afterTicks_cons, IH. cbn [runTicks].
  destruct ups as [|up' ups]; [done|]. cbn [runTicks]. rewrite last_cons_cons.
  set (r := collectData cfg up' _). set (run := runTicks cfg ups _).
  destruct (proj2 (last_is_Some (r :: run))) as [x Hx]; [done|]. by rewrite Hx.
Qed.

(** A worker whose ticks all fall inside the time window runs the cycles
    one after the other, each on the map the previous one left. *)
Lemma workerLoop_ticks startHour endHour cfg hour ups :
  isWithinTimeWindow startHour endHour hour = true →
  ∀ (m : gmap string BusState.t) calls,
    workerLoop startHour endHour cfg (tickerC hour <$> ups) m calls =
      {| returned := false;
         busStates := afterTicks cfg ups m;
         created := calls ++ concat (snd <$> runTicks cfg ups m) |}.
Proof.
  intros Hopen. induction ups as [|up ups IH]; intros m calls.
  - simpl. by rewrite app_nil_r.
  - rewrite fmap_cons. cbn [workerLoop]. rewrite Hopen, IH.
    cbn [runTicks]. rewrite fmap_cons. simpl. by rewrite app_assoc.
Qed.

(** ** The time window *)

(** C6. Time-window gate: the window is open exactly when both hours are 0,
    or [startHour < endHour] and [startHour <= h < endHour], or
    [startHour > endHour] and ([h >= startHour] or [h < endHour]), or
    the hours are equal and nonzero and [h = startHour].  This holds for all
    integers, so in particular for hours in 0..23.  With 22 and 2, hours 23
    and 1 are open and hour 10 is closed; with 0 and 0 every hour is open. *)
Theorem time_window_gate (startHour endHour h : Z) :
  (isWithinTimeWindow startHour endHour h = true ↔
     (startHour = 0 ∧ endHour = 0)
     ∨ (startHour < endHour ∧ startHour ≤ h < endHour)
     ∨ (endHour < startHour ∧ (startHour ≤ h ∨ h < endHour))
     ∨ (startHour = endHour ∧ startHour ≠ 0 ∧ h = startHour))
  ∧ isWithinTimeWindow 22 2 23 = true
  ∧ isWithinTimeWindow 22 2 1 = true
  ∧ isWithinTimeWindow 22 2 10 = false
  ∧ isWithinTimeWindow 0 0 h = true.
Proof.
  split; [|done]. unfold isWithinTimeWindow.
  destruct (Z.eqb_spec startHour 0), (Z.eqb_spec endHour 0); simpl;
    try (split; [intros _; lia|done]);
    destruct (Z.ltb_spec startHour endHour);
    try (rewrite andb_true_iff, Z.geb_le, Z.ltb_lt; lia);
    destruct (Z.gtb_spec startHour endHour);
    try (rewrite orb_true_iff, Z.geb_le, Z.ltb_lt; lia);
    rewrite Z.eqb_eq; lia.
Qed.

(** The night window 22-2 is open at midnight; the window 9-9 at 9. *)
Lemma time_window_gate_witness :
  isWithinTimeWindow 22 2 0 = true ∧ isWithinTimeWindow 9 9 9 = true.
Proof.
  split.
  - apply (proj1 (time_window_gate 22 2 0)). right. right. left. lia.
  - apply (proj1 (time_window_gate 9 9 9)). right. right. right. lia.
Defined.

(** ** The confirmation lookup *)

Lemma scanLocations_no_match locations plateNo :
  Forall (λ loc, BusLocation.PlateNo loc ≠ plateNo) locations →
  scanLocations locations plateNo = None.
Proof.
  induction 1 as [|loc rest Hne _ IH]; simpl; [done|].
  by rewrite decide_False.
Qed.

Lemma scanLocations_first_match before loc after plateNo :
  Forall (λ l, BusLocation.PlateNo l ≠ plateNo) before →
  BusLocation.PlateNo loc = plateNo →
  scanLocations (before ++ loc :: after) plateNo =
    if BusLocation.RemainSeatCnt loc <? 0 then None
    else Some (BusLocation.RemainSeatCnt loc).
Proof.
  intros Hbefore Hloc. induction Hbefore as [|l rest Hne _ IH]; simpl.
  - by rewrite decide_True.
  - by rewrite decide_False.
Qed.

Lemma scanLocations_Some locations plateNo v :
  scanLocations locations plateNo = Some v →
  0 ≤ v ∧ ∃ loc, loc ∈ locations ∧ BusLocation.PlateNo loc = plateNo
                 ∧ BusLocation.RemainSeatCnt loc = v.
Proof.
  induction locations as [|loc rest IH]; simpl; [done|].
  case_decide as Hp.
  - destruct (Z.ltb_spec (BusLocation.RemainSeatCnt loc) 0); [done|].
    intros [= <-]. split; [done|]. exists loc. split; [left|done].
  - intros Hv. destruct (IH Hv) as (Hpos & l & Hin & Hl).
    split; [done|]. exists l. split; [by right|done].
Qed.

(** C7. Confirmation policy never errors: the lookup for (routeID, plate)
    answers "no confirmation" when the location fetch fails, when no
    returned location carries the plate, and when the location that carries
    the plate (the first one the scan meets) has a negative seat count; it
    answers a value only for a location with the plate and a seat count of
    at least 0, so that 0 itself is a confirmation.  Its result is an
    optional seat count: there is no error for the tick loop to receive. *)
Theorem confirmation_never_errors (up : Upstream) (routeID plateNo : string) :
  (GetBusLocations up routeID plateNo = None →
     getSeatsAfterFromBusLocation up routeID plateNo = None)
  ∧ (∀ locations,
       GetBusLocations up routeID plateNo = Some locations →
       Forall (λ loc, BusLocation.PlateNo loc ≠ plateNo) locations →
       getSeatsAfterFromBusLocation up routeID plateNo = None)
  ∧ (∀ before loc after,
       GetBusLocations up routeID plateNo = Some (before ++ loc :: after) →
       Forall (λ l, BusLocation.PlateNo l ≠ plateNo) before →
       BusLocation.PlateNo loc = plateNo →
       (BusLocation.RemainSeatCnt loc < 0 →
          getSeatsAfterFromBusLocation up routeID plateNo = None)
       ∧ (0 ≤ BusLocation.RemainSeatCnt loc →
          getSeatsAfterFromBusLocation up routeID plateNo =
            Some (BusLocation.RemainSeatCnt loc)))
  ∧ (∀ v,
       getSeatsAfterFromBusLocation up routeID plateNo = Some v →
       0 ≤ v
       ∧ ∃ locations loc,
           GetBusLocations up routeID plateNo = Some locations
           ∧ loc ∈ locations
           ∧ BusLocation.PlateNo loc = plateNo
           ∧ BusLocation.RemainSeatCnt loc = v).
Proof.
  unfold getSeatsAfterFromBusLocation. split; [|split; [|split]].
  - by intros ->.
  - intros locations -> Hno. by apply scanLocations_no_match.
  - intros before loc after -> Hbefore Hloc.
    rewrite scanLocations_first_match by done.
    destruct (Z.ltb_spec (BusLocation.RemainSeatCnt loc) 0);
      split; intros; try done; lia.
  - intros v Hv.
    destruct (GetBusLocations up routeID plateNo) as [locations|]; [|done].
    apply scanLocations_Some in Hv as (Hpos & loc & ? & ? & ?).
    split; [done|]. by exists locations, loc.
Qed.

(** The four answers of the lookup on concrete location lists. *)
Lemma confirmation_never_errors_witness :
  getSeatsAfterFromBusLocation (outage 1000) "R100" "A1" = None
  ∧ getSeatsAfterFromBusLocation
      (poll 1000 [] (Some [located "B2" 7]) true) "R100" "A1" = None
  ∧ getSeatsAfterFromBusLocation
      (poll 1000 [] (Some [located "B2" 7; located "A1" (-1)]) true) "R100" "A1" = None
  ∧ getSeatsAfterFromBusLocation
      (poll 1000 [] (Some [located "B2" 7; located "A1" 0]) true) "R100" "A1" = Some 0.
Proof.
  split; [|split; [|split]].
  - apply (proj1 (confirmation_never_errors (outage 1000) "R100" "A1")). reflexivity.
  - apply (proj1 (proj2 (confirmation_never_errors
             (poll 1000 [] (Some [located "B2" 7]) true) "R100" "A1"))
             [located "B2" 7]); [reflexivity|].
    repeat constructor. simpl. discriminate.
  - apply (proj1 (proj2 (proj2 (confirmation_never_errors
             (poll 1000 [] (Some [located "B2" 7; located "A1" (-1)]) true) "R100" "A1")))
             [located "B2" 7] (located "A1" (-1)) []); [reflexivity| |reflexivity|simpl; lia].
    repeat constructor. simpl. discriminate.
  - apply (proj1 (proj2 (proj2 (confirmation_never_errors
             (poll 1000 [] (Some [located "B2" 7; located "A1" 0]) true) "R100" "A1")))
             [located "B2" 7] (located "A1" 0) []); [reflexivity| |reflexivity|simpl; lia].
    repeat constructor. simpl. discriminate.
Defined.

(** ** The worker loop *)

Lemma workerLoop_failed_tick startHour endHour cfg hour up before after :
  GetRouteArrivalList up = None →
  ∀ busStates created,
    workerLoop startHour endHour cfg (before ++ tickerC hour up :: after)
      busStates created =
    workerLoop startHour endHour cfg (before ++ after) busStates created.
Proof.
  intros Herr. induction before as [|sig before IH]; intros busStates created.
  - simpl. unfold collectData. rewrite Herr. simpl. rewrite app_nil_r.
    by case_match.
  - destruct sig as [| |hour' up']; simpl; try done.
    case_match; apply IH.
Qed.

(** C8. Snapshot-error tick atomicity: when the snapshot fetch of a tick
    fails, the tick leaves the tracking map exactly as it was and makes no
    [Create] call; the worker loop goes on with the following signals as if
    that tick had not fired, and it has not returned after such a tick
    unless it had returned before it. *)
Theorem snapshot_error_skips_tick (cfg : RouteConfig.t) (up : Upstream)
    (m : gmap string BusState.t) :
  GetRouteArrivalList up = None →
  collectData cfg up m = (m, [])
  ∧ (∀ startHour endHour hour before after,
       collectForConfig startHour endHour cfg (before ++ tickerC hour up :: after) =
       collectForConfig startHour endHour cfg (before ++ after))
  ∧ (∀ startHour endHour hour before,
       returned (collectForConfig startHour endHour cfg (before ++ [tickerC hour up])) =
       returned (collectForConfig startHour endHour cfg before)).
Proof.
  intros Herr. split; [|split].
  - unfold collectData. by rewrite Herr.
  - intros. unfold collectForConfig. by apply workerLoop_failed_tick.
  - intros. unfold collectForConfig.
    rewrite (workerLoop_failed_tick _ _ _ _ _ _ [] Herr). by rewrite app_nil_r.
Qed.

(** A failed snapshot fetch leaves a tracked plate as it was. *)
Lemma snapshot_error_skips_tick_witness :
  collectData cfg0 (outage 1060) {["A1" := newBusState (outage 1000) (reading "A1" 3 10)]} =
    ({["A1" := newBusState (outage 1000) (reading "A1" 3 10)]}, []).
Proof.
  apply (proj1 (snapshot_error_skips_tick cfg0 (outage 1060)
                  {["A1" := newBusState (outage 1000) (reading "A1" 3 10)]} eq_refl)).
Defined.

(** ** The supervisor: [Stop] *)

(** C10. [Stop] is idempotent and does nothing when the collector is not
    running: on a collector that is not running (never started, or stopped)
    it returns the collector unchanged and has no effect; after any [Stop]
    [IsRunning] is false; a second [Stop] in a row changes nothing. *)
Theorem Stop_idempotent (c : Collector.t) :
  (IsRunning c = false → Stop c = (c, []))
  ∧ IsRunning (Stop c).1 = false
  ∧ Stop (Stop c).1 = ((Stop c).1, [])
  ∧ (∀ intervalMs startHour endHour,
       IsRunning (NewCollector intervalMs startHour endHour) = false
       ∧ Stop (NewCollector intervalMs startHour endHour) =
           (NewCollector intervalMs startHour endHour, []))
  ∧ (∀ found, IsRunning (Start found c).1 = true
              ∧ IsRunning (Stop (Start found c).1).1 = false).
Proof.
  assert (Hstopped : ∀ c', IsRunning (Stop c').1 = false).
  { intros c'. unfold Stop, IsRunning.
    destruct (Collector.mainCancel c') eqn:E; simpl; [done|by rewrite E]. }
  assert (Hidle : ∀ c', IsRunning c' = false → Stop c' = (c', [])).
  { intros c'. unfold Stop, IsRunning. by destruct (Collector.mainCancel c'). }
  split; [apply Hidle|]. split; [apply Hstopped|].
  split; [apply Hidle, Hstopped|]. split; [done|].
  intros found. split; [|apply Hstopped].
  unfold Start, syncConfigs. by destruct found.
Qed.

(** [Stop] on a collector that was never started. *)
Lemma Stop_idempotent_witness :
  Stop (NewCollector 30000 22 2) = (NewCollector 30000 22 2, []).
Proof. apply (proj1 (Stop_idempotent (NewCollector 30000 22 2))). reflexivity. Defined.

(** ** Passage, confirmation and timeout *)

Lemma sightings_absent p arrivals :
  Forall (λ a, BusArrivalInfo.PlateNo a ≠ p) arrivals → sightings p arrivals = [].
Proof.
  intros H. unfold sightings. case_decide; [done|].
  induction H as [|a l Ha _ IH]; [done|]. by rewrite filter_cons_False.
Qed.

(** The entry of an absent plate after one cycle, from the entry before. *)
Lemma entryTick_absent cfg up p state arrivals :
  GetRouteArrivalList up = Some arrivals →
  sightings p arrivals = [] →
  entryTick cfg up p (Some state) =
    ((passedEntry cfg up p state).1 ≫= ceiling up, (passedEntry cfg up p state).2).
Proof. intros Ha Hs. unfold entryTick. rewrite Ha, Hs. done. Qed.

(** C4, as the code has it.  Confirmation success short-circuits the
    timeout: when a tracked, unfinalized plate is absent from the snapshot
    and the confirmation lookup of that tick returns a seat count, the
    tracker hands exactly one record for the plate to the persistence sink
    in that very tick, whether or not the two-minute timeout has been
    reached, with seats-after the confirmed value, arrival time the entry's
    lastSeenAt and seats-before the entry's reading.  The entry is marked
    finalized in that tick exactly when the sink accepts the record: after
    a refused record it is still unfinalized.  The entry stays in the map
    unless a cleanup rule removes it in the same tick (more than ten
    minutes since lastSeenAt or more than an hour since firstSeenAt). *)
Theorem confirmation_short_circuits (cfg : RouteConfig.t) (up : Upstream)
    (m : gmap string BusState.t) (p : string) (state : BusState.t)
    (arrivals : list BusArrivalInfo.t) (v : Z) :
  m !! p = Some state →
  BusState.Recorded state = false →
  GetRouteArrivalList up = Some arrivals →
  Forall (λ a, BusArrivalInfo.PlateNo a ≠ p) arrivals →
  getSeatsAfterFromBusLocation up (RouteConfig.RouteID cfg) p = Some v →
  let busArrival :=
    BusArrival.mk (RouteConfig.ID cfg) p (BusState.LastSeenAt state)
      (Some (BusState.SeatsBefore state)) (Some v) in
  callsFor p (collectData cfg up m).2 = [(busArrival, Create up busArrival)]
  ∧ (∀ state', (collectData cfg up m).1 !! p = Some state' →
               BusState.Recorded state' = Create up busArrival)
  ∧ (kept state up → is_Some ((collectData cfg up m).1 !! p))
  ∧ (10 * time.Minute < time.Sub (now up) (BusState.LastSeenAt state)
     ∨ 1 * time.Hour < time.Sub (now up) (BusState.FirstSeenAt state) →
     (collectData cfg up m).1 !! p = None).
Proof.
  intros Hm Hrec Ha Habs Hconf busArrival.
  rewrite collectData_calls, collectData_lookup, Hm.
  rewrite (entryTick_absent _ _ _ _ arrivals) by auto using sightings_absent.
  unfold passedEntry, recordPassage. rewrite Hrec, Hconf.
  set (state1 := if time.IsZero (BusState.PassedAt state)
                 then BusState.with_PassedAt (now up) state else state).
  assert (Hlast : BusState.LastSeenAt state1 = BusState.LastSeenAt state)
    by (subst state1; by case_match).
  assert (Hfirst : BusState.FirstSeenAt state1 = BusState.FirstSeenAt state)
    by (subst state1; by case_match).
  assert (Hseats : BusState.SeatsBefore state1 = BusState.SeatsBefore state)
    by (subst state1; by case_match).
  assert (Hrec1 : BusState.Recorded state1 = false)
    by (subst state1; by case_match).
  rewrite Hlast, Hseats. fold busArrival.
  unfold saveArrival, ceiling, kept.
  destruct (Create up busArrival) eqn:Hok; simpl; rewrite ?Hlast;
    destruct (Z.gtb_spec (time.Sub (now up) (BusState.LastSeenAt state))
                (10 * time.Minute)); simpl; rewrite ?Hfirst;
    destruct (Z.gtb_spec (time.Sub (now up) (BusState.FirstSeenAt state))
                (1 * time.Hour)); simpl;
    (split; [done|]); (split; [intros; simplify_eq; done|]);
    (split; [intros [? ?]; try lia; eauto|]);
    intros [?|?]; try lia; done.
Qed.

(** A plate last seen at second 1060 with 6 seats and confirmed with 4 seats
    ten seconds later. *)
Lemma confirmation_short_circuits_witness :
  callsFor "A1"
    (collectData cfg0 (poll 1070 [] (Some [located "A1" 4]) true)
       {["A1" := newBusState (poll 1060 [] None true) (reading "A1" 1 6)]}).2 =
  [(BusArrival.mk 1 "A1" 1060000000000 (Some 6) (Some 4), true)].
Proof.
  refine (proj1 (confirmation_short_circuits cfg0
            (poll 1070 [] (Some [located "A1" 4]) true)
            {["A1" := newBusState (poll 1060 [] None true) (reading "A1" 1 6)]}
            "A1" (newBusState (poll 1060 [] None true) (reading "A1" 1 6)) [] 4
            _ _ _ _ _)).
  - reflexivity.
  - reflexivity.
  - reflexivity.
  - constructor.
  - reflexivity.
Defined.

(** C4, as stated, fails: the plate was last seen at second 1060 and is
    missing at second 1070, the entry is not finalized, the confirmation
    lookup returns 4 seats well before the timeout and the record with
    seats-after 4 is handed over, but the sink refuses it: the entry is not
    finalized at that tick.  It is finalized at the next tick, by a record
    that carries the seats-after confirmed then, 7. *)
Lemma confirmation_short_circuits_counterexample :
  arrived !! "A1" = Some (newBusState (poll 1060 [] None true) (reading "A1" 1 6))
  ∧ BusState.Recorded (newBusState (poll 1060 [] None true) (reading "A1" 1 6)) = false
  ∧ GetRouteArrivalList (poll 1070 [] (Some [located "A1" 4]) false) = Some []
  ∧ getSeatsAfterFromBusLocation (poll 1070 [] (Some [located "A1" 4]) false)
      (RouteConfig.RouteID cfg0) "A1" = Some 4
  ∧ time.Sub (now (poll 1070 [] (Some [located "A1" 4]) false)) 1060000000000
    < 2 * time.Minute
  ∧ (collectData cfg0 (poll 1070 [] (Some [located "A1" 4]) false) arrived).2 =
      [(BusArrival.mk 1 "A1" 1060000000000 (Some 6) (Some 4), false)]
  ∧ (collectData cfg0 (poll 1070 [] (Some [located "A1" 4]) false) arrived).1 !! "A1" =
      Some (BusState.with_PassedAt 1070000000000
              (newBusState (poll 1060 [] None true) (reading "A1" 1 6)))
  ∧ flag "A1" (collectData cfg0 (poll 1070 [] (Some [located "A1" 4]) false) arrived).1
    = false
  ∧ (collectData cfg0 (poll 1100 [] (Some [located "A1" 7]) true)
       (collectData cfg0 (poll 1070 [] (Some [located "A1" 4]) false) arrived).1).2 =
      [(BusArrival.mk 1 "A1" 1060000000000 (Some 6) (Some 7), true)]
  ∧ flag "A1"
      (collectData cfg0 (poll 1100 [] (Some [located "A1" 7]) true)
         (collectData cfg0 (poll 1070 [] (Some [located "A1" 4]) false) arrived).1).1
    = true.
Proof.
  split; [vm_compute; reflexivity|].
  split; [reflexivity|].
  split; [reflexivity|].
  split; [reflexivity|].
  split; [vm_compute; reflexivity|].
  split; [vm_compute; reflexivity|].
  split; [vm_compute; reflexivity|].
  split; [vm_compute; reflexivity|].
  split; vm_compute; reflexivity.
Qed.

(** ** Approach readings *)

(** The entry of a plate that the snapshot lists once, after one cycle. *)
Lemma entryTick_seen cfg up p o arrivals a :
  GetRouteArrivalList up = Some arrivals →
  sightings p arrivals = [a] →
  entryTick cfg up p o = (observe up o a ≫= ceiling up, []).
Proof.
  intros Ha Hs. unfold entryTick. rewrite Ha, Hs. simpl.
  by destruct o.
Qed.

Lemma ceiling_young up state :
  time.Sub (now up) (BusState.FirstSeenAt state) ≤ 1 * time.Hour →
  ceiling up state = Some state.
Proof.
  intros H. unfold ceiling.
  destruct (Z.gtb_spec (time.Sub (now up) (BusState.FirstSeenAt state))
              (1 * time.Hour)); [lia|done].
Qed.

Lemma ceiling_Some up state state' :
  ceiling up state = Some state' → state' = state.
Proof. unfold ceiling. case_match; congruence. Qed.




(** The entry of a plate listed once in the snapshot, read in the map. *)
Lemma collectData_seen cfg up (m : gmap string BusState.t) p arrivals a :
  GetRouteArrivalList up = Some arrivals →
  sightings p arrivals = [a] →
  (collectData cfg up m).1 !! p = observe up (m !! p) a ≫= ceiling up.
Proof.
  intros Ha Hs. by rewrite collectData_lookup, (entryTick_seen _ _ _ _ arrivals a).
Qed.

Lemma updateBusState_fields up a state :
  BusState.PlateNo (updateBusState up a state) = BusState.PlateNo state
  ∧ BusState.FirstSeenAt (updateBusState up a state) = BusState.FirstSeenAt state
  ∧ BusState.Recorded (updateBusState up a state) = BusState.Recorded state
  ∧ BusState.PassedAt (updateBusState up a state) = BusState.PassedAt state
  ∧ BusState.RetryCount (updateBusState up a state) = BusState.RetryCount state.
Proof. unfold updateBusState. by case_match. Qed.

Lemma foldl_observe_Some up l : ∀ state,
  ∃ state', foldl (observe up) (Some state) l = Some state'
    ∧ BusState.FirstSeenAt state' = BusState.FirstSeenAt state
    ∧ BusState.Recorded state' = BusState.Recorded state
    ∧ BusState.PassedAt state' = BusState.PassedAt state.
Proof.
  induction l as [|a l IH]; intros state; simpl; [by exists state|].
  destruct (IH (updateBusState up a state)) as (state' & -> & Hf & Hr & Hp).
  destruct (updateBusState_fields up a state) as (_ & Hf' & Hr' & Hp' & _).
  exists state'. rewrite Hf, Hr, Hp. done.
Qed.

(** The readings of one snapshot, taken in order: the stored approach
    reading is kept when no reading is strictly closer than it, and is
    otherwise that of a reading strictly closer than the stored one and at
    least as close as every reading of the snapshot. *)
Lemma foldl_observe_closest up l : ∀ state,
  ∃ state', foldl (observe up) (Some state) l = Some state'
    ∧ (l ≠ [] → BusState.LastSeenAt state' = now up)
    ∧ ((BusState.SeatsBefore state' = BusState.SeatsBefore state
        ∧ BusState.LocationNo state' = BusState.LocationNo state
        ∧ Forall (λ a, BusState.LocationNo state ≤ BusArrivalInfo.LocationNo1 a) l)
       ∨ (∃ a, a ∈ l
            ∧ BusArrivalInfo.LocationNo1 a < BusState.LocationNo state
            ∧ BusState.SeatsBefore state' = BusArrivalInfo.RemainSeatCnt a
            ∧ BusState.LocationNo state' = BusArrivalInfo.LocationNo1 a
            ∧ Forall (λ b, BusArrivalInfo.LocationNo1 a ≤ BusArrivalInfo.LocationNo1 b) l)).
Proof.
  induction l as [|a l IH]; intros state.
  - exists state. split; [done|]. split; [done|]. left. done.
  - cbn [foldl observe].
    destruct (IH (updateBusState up a state)) as (state' & E & Hlast & Hcases).
    exists state'. split; [done|]. split.
    { intros _. destruct l as [|b l]; [|by apply Hlast].
      simpl in E. injection E as <-. unfold updateBusState. by case_match. }
    unfold updateBusState in Hcases. simpl in Hcases.
    destruct (Z.ltb_spec (BusArrivalInfo.LocationNo1 a) (BusState.LocationNo state))
      as [Hlt|Hge]; simpl in Hcases.
    + right. destruct Hcases as [(Hs & Hn & Hall)|(b & Hb & Hbl & Hs & Hn & Hall)].
      * exists a. split; [left|]. split; [done|]. split; [done|]. split; [done|].
        constructor; [lia|done].
      * exists b. split; [by right|]. split; [lia|]. split; [done|]. split; [done|].
        constructor; [lia|done].
    + destruct Hcases as [(Hs & Hn & Hall)|(b & Hb & Hbl & Hs & Hn & Hall)].
      * left. split; [done|]. split; [done|]. constructor; [lia|done].
      * right. exists b. split; [by right|]. split; [done|]. split; [done|].
        split; [done|]. constructor; [lia|done].
Qed.




(** ** Removal of entries *)

Lemma recordPassage_fields cfg up p state :
  BusState.FirstSeenAt (recordPassage cfg up p state).1 = BusState.FirstSeenAt state
  ∧ BusState.LastSeenAt (recordPassage cfg up p state).1 = BusState.LastSeenAt state
  ∧ BusState.SeatsBefore (recordPassage cfg up p state).1 = BusState.SeatsBefore state
  ∧ BusState.LocationNo (recordPassage cfg up p state).1 = BusState.LocationNo state.
Proof. unfold recordPassage, saveArrival. by repeat case_match. Qed.

(** The entry an absent plate is left with: the one the passage block
    produced, unless the ten-minute rule deletes it. *)
Lemma passedEntry_entry cfg up p state :
  (passedEntry cfg up p state).1 =
    if time.Sub (now up) (BusState.LastSeenAt state) >? 10 * time.Minute then None
    else Some (if BusState.Recorded state then state
               else (recordPassage cfg up p state).1).
Proof.
  unfold passedEntry. destruct (BusState.Recorded state).
  - by case_match.
  - destruct (recordPassage_fields cfg up p state) as (_ & Hl & _).
    destruct (recordPassage cfg up p state) as [s1 made]. simpl in *.
    rewrite Hl. by case_match.
Qed.

Lemma passedEntry_calls cfg up p state :
  (passedEntry cfg up p state).2 =
    if BusState.Recorded state then [] else (recordPassage cfg up p state).2.
Proof.
  unfold passedEntry. destruct (BusState.Recorded state).
  - by case_match.
  - destruct (recordPassage cfg up p state) as [s1 made]. by case_match.
Qed.

(** C2, as the code has it.  A tick removes a tracked entry exactly when
    its snapshot fetch succeeded and either (a) the plate is absent from the
    snapshot and more than 10 minutes have passed since lastSeenAt, whether
    the entry is finalized or not, or (b) more than 1 hour has passed since
    firstSeenAt.  So an entry whose plate is in the snapshot, or that was
    last seen at most 10 minutes ago, and that was first seen at most an
    hour ago, is never removed. *)
Theorem removal_rule (cfg : RouteConfig.t) (up : Upstream)
    (m : gmap string BusState.t) (p : string) (state : BusState.t) :
  m !! p = Some state →
  ((collectData cfg up m).1 !! p = None ↔
   ∃ arrivals,
     GetRouteArrivalList up = Some arrivals
     ∧ ((sightings p arrivals = []
         ∧ 10 * time.Minute < time.Sub (now up) (BusState.LastSeenAt state))
        ∨ 1 * time.Hour < time.Sub (now up) (BusState.FirstSeenAt state))).
Proof.
  intros Hm. rewrite collectData_lookup, Hm. unfold entryTick.
  destruct (GetRouteArrivalList up) as [arrivals|]; [|naive_solver].
  destruct (foldl_observe_Some up (sightings p arrivals) state)
    as (state1 & E1 & Hf1 & _).
  rewrite E1. destruct (sightings p arrivals) as [|a l] eqn:Es; simpl.
  - simpl in E1. injection E1 as <-. rewrite passedEntry_entry.
    destruct (Z.gtb_spec (time.Sub (now up) (BusState.LastSeenAt state))
                (10 * time.Minute)); simpl.
    + split; [|done]. intros _. exists arrivals. naive_solver.
    + unfold ceiling.
      assert (Hf : BusState.FirstSeenAt
                (if BusState.Recorded state then state
                 else (recordPassage cfg up p state).1) = BusState.FirstSeenAt state).
      { case_match; [done|apply recordPassage_fields]. }
      rewrite Hf.
      destruct (Z.gtb_spec (time.Sub (now up) (BusState.FirstSeenAt state))
                  (1 * time.Hour)).
      * split; [|done]. intros _. exists arrivals. naive_solver.
      * split; [done|]. intros (? & [= <-] & [[_ ?]|?]); lia.
  - unfold ceiling. rewrite Hf1.
    destruct (Z.gtb_spec (time.Sub (now up) (BusState.FirstSeenAt state))
                (1 * time.Hour)).
    + split; [|done]. intros _. exists arrivals. naive_solver.
    + split; [done|]. intros (? & [= <-] & [[? _]|?]); [congruence|lia].
Qed.

(** The ten-minute rule at work on an entry that is not finalized. *)
Lemma removal_rule_witness :
  (collectData cfg0 elevenMinutesLater seenOnce).1 !! "A1" = None.
Proof.
  refine (proj2 (removal_rule cfg0 elevenMinutesLater seenOnce "A1"
                   (newBusState (poll 1000 [] None true) (reading "A1" 1 6)) _) _).
  - reflexivity.
  - exists []. split; [reflexivity|]. left. split; [reflexivity|]. vm_compute. reflexivity.
Defined.

(** C2, as stated, fails: this entry is not finalized (it was never
    recorded and the tick makes no [Create] call), it was first seen eleven
    minutes ago, and the tick removes it. *)
Lemma removal_invariant_counterexample :
  seenOnce !! "A1" = Some (newBusState (poll 1000 [] None true) (reading "A1" 1 6))
  ∧ BusState.Recorded (newBusState (poll 1000 [] None true) (reading "A1" 1 6)) = false
  ∧ (collectData cfg0 elevenMinutesLater seenOnce).2 = []
  ∧ time.Sub (now elevenMinutesLater)
      (BusState.FirstSeenAt (newBusState (poll 1000 [] None true) (reading "A1" 1 6)))
    < 1 * time.Hour
  ∧ (collectData cfg0 elevenMinutesLater seenOnce).1 !! "A1" = None.
Proof. vm_compute. repeat split; reflexivity. Qed.

(** ** Finalize once *)

Lemma recordPassage_flag cfg up p state :
  BusState.Recorded state = false →
  ((recordPassage cfg up p state).2 = []
   ∧ BusState.Recorded (recordPassage cfg up p state).1 = false)
  ∨ ∃ a ok, (recordPassage cfg up p state).2 = [(a, ok)]
            ∧ BusState.Recorded (recordPassage cfg up p state).1 = ok.
Proof.
  intros Hr. unfold recordPassage, saveArrival.
  destruct (getSeatsAfterFromBusLocation _ _ _) as [v|].
  - right. destruct (Create up _) eqn:Hok; do 2 eexists; (split; [done|]);
      simpl; [done|by case_match].
  - case_match.
    + left. split; [done|]. simpl. by case_match.
    + right. destruct (Create up _) eqn:Hok; do 2 eexists; (split; [done|]);
        simpl; [done|by case_match].
Qed.

(** What one cycle does to the flag of a plate and which calls it makes. *)
Lemma entryTick_flag cfg up p o :
  ((entryTick cfg up p o).2 = []
   ∧ ∀ state', (entryTick cfg up p o).1 = Some state' →
               BusState.Recorded state' = flagOf o)
  ∨ (flagOf o = false ∧ is_Some o
     ∧ ∃ a ok, (entryTick cfg up p o).2 = [(a, ok)]
               ∧ ∀ state', (entryTick cfg up p o).1 = Some state' →
                           BusState.Recorded state' = ok).
Proof.
  unfold entryTick. destruct (GetRouteArrivalList up) as [arrivals|];
    [|left; split; [done|]; simpl; by intros state' ->].
  destruct o as [state|].
  - destruct (foldl_observe_Some up (sightings p arrivals) state)
      as (state1 & E1 & _ & Hr1 & _).
    rewrite E1. destruct (sightings p arrivals) as [|a l] eqn:Es.
    + simpl in E1. injection E1 as <-. cbn [fst snd].
      rewrite passedEntry_entry, passedEntry_calls.
      destruct (BusState.Recorded state) eqn:Hrec.
      * left. split; [done|]. intros state'. case_match; simpl; [done|].
        intros Hc. apply ceiling_Some in Hc as ->. done.
      * destruct (recordPassage_flag cfg up p state Hrec) as [[Hc Hf]|(a & ok & Hc & Hf)].
        -- left. split; [done|]. intros state'. case_match; simpl; [done|].
           intros Hc'. apply ceiling_Some in Hc' as ->. by rewrite Hf.
        -- right. split; [done|]. split; [done|]. exists a, ok. split; [done|].
           intros state'. case_match; simpl; [done|].
           intros Hc'. apply ceiling_Some in Hc' as ->. done.
    + left. split; [done|]. simpl. intros state' Hc.
      apply ceiling_Some in Hc as ->. done.
  - left. destruct (sightings p arrivals) as [|a l].
    + split; [done|]. simpl. done.
    + cbn [foldl observe].
      destruct (foldl_observe_Some up l (newBusState up a)) as (state1 & E1 & _ & Hr1 & _).
      rewrite E1. split; [done|]. simpl. intros state' Hc.
      apply ceiling_Some in Hc as ->. done.
Qed.

(** The same fact read in the map that [collectData] returns. *)
Lemma collectData_flag cfg up (m : gmap string BusState.t) p :
  (callsFor p (collectData cfg up m).2 = []
   ∧ (is_Some ((collectData cfg up m).1 !! p) →
      flag p (collectData cfg up m).1 = flag p m))
  ∨ (flag p m = false ∧ is_Some (m !! p)
     ∧ ∃ a ok, callsFor p (collectData cfg up m).2 = [(a, ok)]
               ∧ (is_Some ((collectData cfg up m).1 !! p) →
                  flag p (collectData cfg up m).1 = ok)).
Proof.
  unfold flag. rewrite collectData_calls, collectData_lookup.
  destruct (entryTick_flag cfg up p (m !! p)) as [[Hc Hf]|(Hfl & Hs & a & ok & Hc & Hf)].
  - left. split; [done|]. intros [state' Hs']. rewrite Hs'. simpl. by apply Hf.
  - right. split; [done|]. split; [done|]. exists a, ok. split; [done|].
    intros [state' Hs']. rewrite Hs'. simpl. by apply Hf.
Qed.

Lemma flag_untracked p (m : gmap string BusState.t) : m !! p = None → flag p m = false.
Proof. unfold flag. by intros ->. Qed.

Lemma flag_true_tracked p (m : gmap string BusState.t) :
  flag p m = true → is_Some (m !! p).
Proof. unfold flag. destruct (m !! p); [eauto|done]. Qed.

Lemma acceptedFor_cons p r run :
  acceptedFor p (r :: run) = accepted (callsFor p r.2) ++ acceptedFor p run.
Proof.
  unfold acceptedFor, accepted. rewrite fmap_cons. simpl.
  by rewrite callsFor_app, filter_app.
Qed.

Lemma oneEntry_tail p r run : oneEntry p (r :: run) = true → oneEntry p run = true.
Proof.
  destruct run as [|r' run]; [done|]. cbn [oneEntry].
  intros H. by apply andb_true_iff in H as [_ H].
Qed.

Lemma oneEntry_head p r r' run :
  oneEntry p (r :: r' :: run) = true → is_Some (r.1 !! p).
Proof.
  cbn [oneEntry]. intros H. apply andb_true_iff in H as [H _].
  destruct (r.1 !! p); [eauto|done].
Qed.

(** Over the life of one entry: at most one accepted [Create], at most one
    false-to-true step of the flag, and neither once the flag is set. *)
Lemma life_once cfg p ups : ∀ m,
  oneEntry p (runTicks cfg ups m) = true →
  (length (acceptedFor p (runTicks cfg ups m)) ≤ 1)%nat
  ∧ (risings (flag p m) ((λ r, flag p r.1) <$> runTicks cfg ups m) ≤ 1)%nat
  ∧ (flag p m = true →
     acceptedFor p (runTicks cfg ups m) = []
     ∧ risings (flag p m) ((λ r, flag p r.1) <$> runTicks cfg ups m) = 0%nat).
Proof.
  induction ups as [|up ups IH]; intros m Hlife.
  - simpl. split; [|split]; [lia|lia|done].
  - cbn [runTicks] in *. set (r := collectData cfg up m) in *.
    destruct (IH r.1 (oneEntry_tail _ _ _ Hlife)) as (IHa & IHr & IHt).
    assert (Hnext : ups ≠ [] → is_Some (r.1 !! p)).
    { destruct ups as [|up' ups']; [done|]. intros _.
      cbn [runTicks] in Hlife. by apply oneEntry_head in Hlife. }
    assert (Hend : ups = [] →
              acceptedFor p (runTicks cfg ups r.1) = []
              ∧ risings (flag p r.1) ((λ r, flag p r.1) <$> runTicks cfg ups r.1) = 0%nat).
    { by intros ->. }
    rewrite acceptedFor_cons, fmap_cons, length_app. cbn [risings].
    destruct (collectData_flag cfg up m p)
      as [[Hc Hf]|(Hfl & Hs & a & [|] & Hc & Hf)]; fold r in Hc, Hf; rewrite Hc.
    + (* no call for the plate in this cycle *)
      assert (Hrise : negb (flag p m) && flag p r.1 = false).
      { destruct (flag p r.1) eqn:Hr; [|by rewrite andb_false_r].
        rewrite <- Hf; [done|]. by apply flag_true_tracked. }
      rewrite Hrise. simpl. split; [done|]. split; [done|].
      intros Hm. destruct (decide (ups = [])) as [He|He]; [by apply Hend|].
      apply IHt. rewrite Hf by auto. done.
    + (* one call, accepted *)
      rewrite Hfl. simpl.
      destruct (decide (ups = [])) as [He|He].
      * destruct (Hend He) as [-> ->]. simpl. split; [lia|].
        split; [destruct (flag p r.1); simpl; lia|done].
      * destruct (IHt (Hf (Hnext He))) as [-> ->]. simpl. split; [lia|].
        split; [destruct (flag p r.1); simpl; lia|done].
    + (* one call, refused *)
      rewrite Hfl. simpl.
      destruct (decide (ups = [])) as [He|He].
      * destruct (Hend He) as [-> ->]. simpl. split; [lia|].
        split; [destruct (flag p r.1); simpl; lia|done].
      * rewrite (Hf (Hnext He)) in IHr |- *. simpl. split; [done|]. split; [done|done].
Qed.

(** C1. Finalize-once.  In every tick and for every plate: at most one
    [Create] call is made for the plate; the flag [Recorded] goes from false
    to true only in a tick whose [Create] call for the plate was accepted;
    a refused [Create] leaves the flag false; a finalized entry gets no
    further call and stays finalized while it is tracked.  Over any run of
    ticks within the life of one entry, at most one [Create] call for the
    plate is accepted and the flag goes from false to true at most once. *)
Theorem finalize_once (cfg : RouteConfig.t) (p : string) :
  (∀ up (m : gmap string BusState.t),
     (length (callsFor p (collectData cfg up m).2) ≤ 1)%nat
     ∧ (flag p m = false → flag p (collectData cfg up m).1 = true →
        ∃ a, callsFor p (collectData cfg up m).2 = [(a, true)])
     ∧ (∀ a, (a, false) ∈ callsFor p (collectData cfg up m).2 →
             flag p (collectData cfg up m).1 = false)
     ∧ (flag p m = true →
        callsFor p (collectData cfg up m).2 = []
        ∧ (is_Some ((collectData cfg up m).1 !! p) →
           flag p (collectData cfg up m).1 = true)))
  ∧ (∀ ups (m : gmap string BusState.t),
       oneEntry p (runTicks cfg ups m) = true →
       (length (acceptedFor p (runTicks cfg ups m)) ≤ 1)%nat
       ∧ (risings (flag p m) ((λ r, flag p r.1) <$> runTicks cfg ups m) ≤ 1)%nat).
Proof.
  split.
  - intros up m.
    destruct (collectData_flag cfg up m p)
      as [[Hc Hf]|(Hfl & Hs & a & ok & Hc & Hf)]; rewrite Hc; simpl.
    + split; [lia|]. split; [|split].
      * intros Hm Hr. rewrite Hf in Hr by (by apply flag_true_tracked). congruence.
      * intros a Ha. by apply elem_of_nil in Ha.
      * intros Hm. split; [done|]. intros Hsome. by rewrite Hf.
    + split; [lia|]. split; [|split].
      * intros _ Hr. exists a. rewrite Hf in Hr by (by apply flag_true_tracked).
        by subst ok.
      * intros a' Ha. apply list_elem_of_singleton in Ha. injection Ha as -> <-.
        destruct (flag p (collectData cfg up m).1) eqn:Hr; [|done].
        by specialize (Hf (flag_true_tracked _ _ Hr)).
      * congruence.
  - intros ups m Hlife. destruct (life_once cfg p ups m Hlife) as (? & ? & _). done.
Qed.

(** The scenario of the specification stays within the life of one entry. *)
Lemma finalize_once_witness :
  (length (acceptedFor "A1" (runTicks cfg0 journey ∅)) ≤ 1)%nat.
Proof.
  refine (proj1 (proj2 (finalize_once cfg0 "A1") journey ∅ _)).
  vm_compute. reflexivity.
Defined.

(** The scenario of the specification yields the single record with
    seats-before 6 and seats-after 4, dated at the last sighting. *)
Example journey_record :
  concat (snd <$> runTicks cfg0 journey ∅) =
    [(BusArrival.mk 1 "A1" 1030000000000 (Some 6) (Some 4), true)].
Proof. vm_compute. reflexivity. Qed.

(** ** Timeout *)


(** The tick in which the timeout is reached. *)
Lemma entryTick_timeout cfg up p state :
  unconfirmed cfg p up →
  BusState.Recorded state = false →
  BusState.PassedAt state ≠ 0 →
  2 * time.Minute ≤ time.Sub (now up) (BusState.PassedAt state) →
  let busArrival :=
    BusArrival.mk (RouteConfig.ID cfg) p (BusState.LastSeenAt state)
      (Some (BusState.SeatsBefore state)) None in
  (entryTick cfg up p (Some state)).2 = [(busArrival, Create up busArrival)]
  ∧ ∀ state', (entryTick cfg up p (Some state)).1 = Some state' →
              BusState.Recorded state' = Create up busArrival.
Proof.
  intros [(arrivals & Ha & Hs) Hconf] Hrec Hpassed Hlate busArrival.
  rewrite (entryTick_absent _ _ _ _ arrivals) by done.
  rewrite passedEntry_entry, passedEntry_calls, Hrec. cbn [fst snd].
  unfold recordPassage. rewrite Hconf. unfold time.IsZero.
  destruct (Z.eqb_spec (BusState.PassedAt state) 0); [done|]. simpl.
  destruct (Z.ltb_spec (time.Sub (now up) (BusState.PassedAt state))
              (2 * time.Minute)); [lia|].
  fold busArrival. unfold saveArrival.
  destruct (Create up busArrival); simpl; (split; [done|]);
    intros state'; case_match; simpl; try done;
    intros Hc; apply ceiling_Some in Hc as ->; done.
Qed.










(** ** The supervisor: [syncConfigs] *)

Lemma activeIDs_fold configs : ∀ acc : gset Z,
  foldl (λ activeIDs cfg, {[RouteConfig.ID cfg]} ∪ activeIDs) acc configs =
    acc ∪ activeIDsOf configs.
Proof.
  unfold activeIDsOf. induction configs as [|cfg configs IH]; intros acc; simpl.
  - set_solver.
  - rewrite IH, (IH ({[RouteConfig.ID cfg]} ∪ ∅)). set_solver.
Qed.

Lemma elem_of_activeIDsOf id configs :
  id ∈ activeIDsOf configs ↔ ∃ cfg, cfg ∈ configs ∧ RouteConfig.ID cfg = id.
Proof.
  induction configs as [|cfg configs IH].
  - unfold activeIDsOf. simpl. split; [set_solver|]. intros (? & H & _). by inversion H.
  - unfold activeIDsOf. simpl. rewrite activeIDs_fold.
    rewrite !elem_of_union, IH, elem_of_singleton. split.
    + intros [[->|H]|(c & Hc & He)]; [exists cfg; split; [left|done]|set_solver|].
      exists c. split; [by right|done].
    + intros (c & Hc & He). apply elem_of_cons in Hc as [->|Hc]; [by left; left|].
      right. by exists c.
Qed.

Section Sync.
Implicit Types (m base : gmap Z configCollector.t) (log : list Effect).

Lemma stopInactive_fold activeIDs base log m :
  ∀ id,
    (map_fold (stopInactive activeIDs) (base, log) m).1 !! id =
      match m !! id with
      | Some _ => if decide (id ∈ activeIDs) then base !! id else None
      | None => base !! id
      end
    ∧ stopsOf id (map_fold (stopInactive activeIDs) (base, log) m).2 =
        stopsOf id log
        ++ (if m !! id is Some _ then
              if decide (id ∈ activeIDs) then [] else [closeStopChan id]
            else [])
    ∧ startsOf id (map_fold (stopInactive activeIDs) (base, log) m).2 =
        startsOf id log.
Proof.
  apply (map_fold_weak_ind (λ r m', ∀ id,
    r.1 !! id = match m' !! id with
                | Some _ => if decide (id ∈ activeIDs) then base !! id else None
                | None => base !! id
                end
    ∧ stopsOf id r.2 =
        stopsOf id log
        ++ (if m' !! id is Some _ then
              if decide (id ∈ activeIDs) then [] else [closeStopChan id]
            else [])
    ∧ startsOf id r.2 = startsOf id log)).
  - intros id. rewrite lookup_empty, app_nil_r. done.
  - intros k cc m' [m1 l1] Hk IH id. destruct (IH id) as (IH1 & IH2 & IH3).
    simpl in IH1, IH2, IH3. unfold stopInactive. simpl.
    destruct (decide (k = id)) as [->|Hne].
    + rewrite lookup_insert_eq. rewrite Hk in IH1, IH2.
      destruct (decide (id ∈ activeIDs)); simpl.
      * rewrite IH1, IH2. done.
      * rewrite lookup_delete_eq. unfold stopsOf, startsOf in *.
        rewrite !filter_app, IH2, IH3, app_nil_r.
        rewrite filter_cons_True by done. rewrite filter_cons_False by done.
        rewrite app_nil_r. done.
    + rewrite lookup_insert_ne by done.
      destruct (decide (k ∈ activeIDs)); simpl; [done|].
      rewrite lookup_delete_ne by done. unfold stopsOf, startsOf in *.
      rewrite !filter_app, IH1, IH2, IH3.
      rewrite !filter_cons_False by congruence. rewrite !app_nil_r. done.
Qed.

Lemma stopInactive_fold_idle activeIDs base log m :
  (∀ id, is_Some (m !! id) → id ∈ activeIDs) →
  map_fold (stopInactive activeIDs) (base, log) m = (base, log).
Proof.
  apply (map_fold_weak_ind (λ r m',
    (∀ id, is_Some (m' !! id) → id ∈ activeIDs) → r = (base, log))); [done|].
  intros k cc m' r Hk IH Hall. unfold stopInactive.
  rewrite decide_True by (apply Hall; rewrite lookup_insert_eq; eauto).
  apply IH. intros id Hid. apply Hall.
  destruct (decide (k = id)) as [->|Hne];
    [rewrite lookup_insert_eq; eauto|by rewrite lookup_insert_ne].
Qed.

Lemma elem_of_activeIDsOf_cons id cfg configs :
  id ∈ activeIDsOf (cfg :: configs) ↔ RouteConfig.ID cfg = id ∨ id ∈ activeIDsOf configs.
Proof.
  rewrite !elem_of_activeIDsOf. split.
  - intros (c & Hc & He). apply elem_of_cons in Hc as [->|Hc]; [by left|].
    right. by exists c.
  - intros [He|(c & Hc & He)]; [exists cfg; split; [left|done]|].
    exists c. split; [by right|done].
Qed.

Lemma startsOf_snoc id log e :
  startsOf id (log ++ [e]) =
    startsOf id log ++ (if decide (e = goCollectForConfig id) then [e] else []).
Proof.
  unfold startsOf. by rewrite filter_app.
Qed.

Lemma stopsOf_snoc id log e :
  stopsOf id (log ++ [e]) =
    stopsOf id log ++ (if decide (e = closeStopChan id) then [e] else []).
Proof.
  unfold stopsOf. by rewrite filter_app.
Qed.

Lemma startNew_fold configs : ∀ m log id,
  (foldl startNew (m, log) configs).1 !! id =
    match m !! id with
    | Some cc => Some cc
    | None =>
        (λ cfg, configCollector.mk cfg makeChan)
          <$> head (filter (λ cfg, RouteConfig.ID cfg = id) configs)
    end
  ∧ startsOf id (foldl startNew (m, log) configs).2 =
      startsOf id log
      ++ (if m !! id is Some _ then []
          else if decide (id ∈ activeIDsOf configs) then [goCollectForConfig id]
               else [])
  ∧ stopsOf id (foldl startNew (m, log) configs).2 = stopsOf id log.
Proof.
  induction configs as [|cfg configs IH]; intros m log id.
  - simpl. destruct (m !! id); rewrite ?decide_False by set_solver;
      by rewrite app_nil_r.
  - cbn [foldl]. unfold startNew at 2 4 6. cbn [fst snd].
    destruct (m !! RouteConfig.ID cfg) as [cc0|] eqn:E0.
    + destruct (IH m log id) as (IH1 & IH2 & IH3). rewrite IH1, IH2, IH3.
      destruct (decide (RouteConfig.ID cfg = id)) as [<-|Hne].
      * rewrite E0. done.
      * rewrite filter_cons_False by done.
        destruct (m !! id); [done|]. split; [done|]. split; [|done].
        f_equal. apply decide_ext. rewrite elem_of_activeIDsOf_cons. naive_solver.
    + destruct (IH (<[RouteConfig.ID cfg := configCollector.mk cfg makeChan]> m)
                  (log ++ [goCollectForConfig (RouteConfig.ID cfg)]) id)
        as (IH1 & IH2 & IH3).
      rewrite IH1, IH2, IH3, startsOf_snoc, stopsOf_snoc.
      rewrite (decide_False (P := _ = closeStopChan id)) by done.
      rewrite app_nil_r.
      destruct (decide (RouteConfig.ID cfg = id)) as [<-|Hne].
      * rewrite lookup_insert_eq, E0, filter_cons_True by done. simpl.
        rewrite decide_True by done.
        rewrite decide_True by (apply elem_of_activeIDsOf_cons; by left).
        rewrite app_nil_r. done.
      * rewrite lookup_insert_ne by done. rewrite filter_cons_False by done.
        rewrite decide_False by congruence. rewrite app_nil_r.
        destruct (m !! id); [done|]. split; [done|]. split; [|done].
        f_equal. apply decide_ext. rewrite elem_of_activeIDsOf_cons. naive_solver.
Qed.

Lemma startNew_fold_idle configs m log :
  (∀ cfg, cfg ∈ configs → is_Some (m !! RouteConfig.ID cfg)) →
  foldl startNew (m, log) configs = (m, log).
Proof.
  induction configs as [|cfg configs IH]; intros Hall; [done|].
  cbn [foldl]. unfold startNew at 2. simpl.
  destruct (Hall cfg) as [cc ->]; [left|].
  apply IH. intros c Hc. apply Hall. by right.
Qed.

End Sync.

Lemma head_filter_active id configs :
  is_Some (head (filter (λ cfg, RouteConfig.ID cfg = id) configs)) ↔
  id ∈ activeIDsOf configs.
Proof.
  rewrite elem_of_activeIDsOf. split.
  - intros [cfg Hc]. apply head_Some_elem_of, list_elem_of_filter in Hc as [? ?].
    by exists cfg.
  - intros (cfg & Hc & He).
    assert (Hin : cfg ∈ filter (λ cfg, RouteConfig.ID cfg = id) configs)
      by (by apply list_elem_of_filter).
    destruct (filter (λ cfg, RouteConfig.ID cfg = id) configs); [by inversion Hin|].
    simpl. eauto.
Qed.

(** The collectors registered after a reconciliation. *)
Lemma syncConfigs_lookup configs (c : Collector.t) id :
  Collector.collectors (syncConfigs (Some configs) c).1 !! id =
    if decide (id ∈ activeIDsOf configs) then
      match Collector.collectors c !! id with
      | Some cc => Some cc
      | None =>
          (λ cfg, configCollector.mk cfg makeChan)
            <$> head (filter (λ cfg, RouteConfig.ID cfg = id) configs)
      end
    else None.
Proof.
  unfold syncConfigs. simpl.
  destruct (map_fold (stopInactive (activeIDsOf configs))
              (Collector.collectors c, []) (Collector.collectors c))
    as [m1 l1] eqn:E1.
  destruct (stopInactive_fold (activeIDsOf configs) (Collector.collectors c) []
              (Collector.collectors c) id) as (H1 & _).
  rewrite E1 in H1. simpl in H1.
  destruct (startNew_fold configs m1 l1 id) as (H2 & _). rewrite H2, H1.
  destruct (decide (id ∈ activeIDsOf configs)) as [Hin|Hout].
  - by destruct (Collector.collectors c !! id).
  - assert (Hh : head (filter (λ cfg, RouteConfig.ID cfg = id) configs) = None).
    { apply eq_None_not_Some. by rewrite head_filter_active. }
    rewrite Hh. by destruct (Collector.collectors c !! id).
Qed.

Lemma syncConfigs_dom configs (c : Collector.t) :
  dom (Collector.collectors (syncConfigs (Some configs) c).1) = activeIDsOf configs.
Proof.
  apply set_eq. intros id. rewrite elem_of_dom, syncConfigs_lookup.
  destruct (decide (id ∈ activeIDsOf configs)) as [Hin|Hout].
  - split; [done|]. intros _. destruct (Collector.collectors c !! id); [eauto|].
    apply head_filter_active in Hin as [cfg ->]. simpl. eauto.
  - split; [by intros [? ?]|done].
Qed.

(** C9. Reconciliation idempotence.  One run of [syncConfigs] on the list
    of active configurations leaves exactly the active configuration IDs as
    keys of the collector map: it closes the stop channel of, and removes,
    every collector whose ID is not active (once each), starts one worker
    for every active ID that had no collector (once each, registered under
    the configuration ID), and keeps the others as they were.  A second run
    against a list with the same set of active IDs stops nothing, starts
    nothing and returns the same collector.  A failed fetch of the list
    changes nothing. *)
Theorem reconciliation_idempotent (c : Collector.t) (configs : list RouteConfig.t) :
  dom (Collector.collectors (syncConfigs (Some configs) c).1) = activeIDsOf configs
  ∧ (∀ id, stopsOf id (syncConfigs (Some configs) c).2 =
           if decide (id ∈ dom (Collector.collectors c) ∧ id ∉ activeIDsOf configs)
           then [closeStopChan id] else [])
  ∧ (∀ id, startsOf id (syncConfigs (Some configs) c).2 =
           if decide (id ∈ activeIDsOf configs ∧ id ∉ dom (Collector.collectors c))
           then [goCollectForConfig id] else [])
  ∧ (∀ id cc, id ∈ activeIDsOf configs →
              Collector.collectors c !! id = Some cc →
              Collector.collectors (syncConfigs (Some configs) c).1 !! id = Some cc)
  ∧ (∀ id cc, Collector.collectors c !! id = None →
              Collector.collectors (syncConfigs (Some configs) c).1 !! id = Some cc →
              ∃ cfg, cfg ∈ configs ∧ RouteConfig.ID cfg = id
                     ∧ cc = configCollector.mk cfg makeChan)
  ∧ (∀ configs', activeIDsOf configs' = activeIDsOf configs →
       syncConfigs (Some configs') (syncConfigs (Some configs) c).1 =
         ((syncConfigs (Some configs) c).1, []))
  ∧ syncConfigs None c = (c, []).
Proof.
  split; [apply syncConfigs_dom|].
  split; [|split]; [| |split; [|split; [|split; [|done]]]].
  - intros id. unfold syncConfigs. simpl.
    destruct (map_fold (stopInactive (activeIDsOf configs))
                (Collector.collectors c, []) (Collector.collectors c))
      as [m1 l1] eqn:E1.
    destruct (stopInactive_fold (activeIDsOf configs) (Collector.collectors c) []
                (Collector.collectors c) id) as (_ & H1 & _).
    rewrite E1 in H1. simpl in H1.
    destruct (startNew_fold configs m1 l1 id) as (_ & _ & H2). rewrite H2, H1.
    destruct (Collector.collectors c !! id) as [cc|] eqn:Ec.
    + assert (Hd : id ∈ dom (Collector.collectors c)) by (apply elem_of_dom; eauto).
      destruct (decide (id ∈ activeIDsOf configs));
        [rewrite decide_False by naive_solver|rewrite decide_True by done]; done.
    + rewrite decide_False; [done|]. intros [Hd _].
      apply elem_of_dom in Hd as [? ?]. congruence.
  - intros id. unfold syncConfigs. simpl.
    destruct (map_fold (stopInactive (activeIDsOf configs))
                (Collector.collectors c, []) (Collector.collectors c))
      as [m1 l1] eqn:E1.
    destruct (stopInactive_fold (activeIDsOf configs) (Collector.collectors c) []
                (Collector.collectors c) id) as (H0 & _ & H1).
    rewrite E1 in H0, H1. simpl in H0, H1.
    destruct (startNew_fold configs m1 l1 id) as (_ & H2 & _). rewrite H2, H1, H0.
    destruct (Collector.collectors c !! id) as [cc|] eqn:Ec.
    + assert (Hd : id ∈ dom (Collector.collectors c)) by (apply elem_of_dom; eauto).
      destruct (decide (id ∈ activeIDsOf configs)) as [Hin|Hout]; simpl.
      * by rewrite decide_False by naive_solver.
      * by rewrite decide_False by naive_solver.
    + assert (Hd : id ∉ dom (Collector.collectors c)).
      { intros Hd. apply elem_of_dom in Hd as [? ?]. congruence. }
      simpl. destruct (decide (id ∈ activeIDsOf configs));
        [rewrite decide_True by done|rewrite decide_False by naive_solver]; done.
  - intros id cc Hin Hc. rewrite syncConfigs_lookup, decide_True, Hc; done.
  - intros id cc Hc. rewrite syncConfigs_lookup, Hc. case_decide; [|done].
    destruct (head (filter (λ cfg, RouteConfig.ID cfg = id) configs)) as [cfg|] eqn:Eh;
      [|done].
    simpl. intros [= <-]. apply head_Some_elem_of, list_elem_of_filter in Eh as [? ?].
    by exists cfg.
  - intros configs' Hsame.
    pose proof (syncConfigs_dom configs c) as Hdom.
    destruct (syncConfigs (Some configs) c).1 as [iv coll ctx cancel sh eh] eqn:Ec'.
    simpl in Hdom. unfold syncConfigs at 1. simpl.
    rewrite stopInactive_fold_idle.
    + rewrite startNew_fold_idle; [done|]. simpl. intros cfg Hcfg.
      apply elem_of_dom. rewrite Hdom, <- Hsame. apply elem_of_activeIDsOf. eauto.
    + intros id Hid. apply elem_of_dom in Hid. by rewrite Hsame, <- Hdom.
Qed.

(** Reconciling twice against configurations 1 and 3, listed in a
    different order the second time. *)
Lemma reconciliation_idempotent_witness :
  syncConfigs (Some [cfg3; cfg0]) (syncConfigs (Some [cfg0; cfg3]) supervising).1 =
    ((syncConfigs (Some [cfg0; cfg3]) supervising).1, []).
Proof.
  refine (proj1 (proj2 (proj2 (proj2 (proj2 (proj2
    (reconciliation_idempotent supervising [cfg0; cfg3])))))) [cfg3; cfg0] _).
  vm_compute. reflexivity.
Defined.

(** The first run of that reconciliation stops collector 2 and starts a
    worker for configuration 3. *)
Example reconciliation_first_run :
  (syncConfigs (Some [cfg0; cfg3]) supervising).2 =
    [closeStopChan 2; goCollectForConfig 3].
Proof. vm_compute. reflexivity. Qed.

(** * Further properties of the collector *)

(** ** The tracking map after a cycle *)

Lemma foldl_observe_fields up l : ∀ state,
  ∃ state', foldl (observe up) (Some state) l = Some state'
    ∧ BusState.PlateNo state' = BusState.PlateNo state
    ∧ BusState.FirstSeenAt state' = BusState.FirstSeenAt state
    ∧ BusState.Recorded state' = BusState.Recorded state
    ∧ BusState.PassedAt state' = BusState.PassedAt state
    ∧ BusState.RetryCount state' = BusState.RetryCount state.
Proof.
  induction l as [|a l IH]; intros state; simpl; [by exists state|].
  destruct (IH (updateBusState up a state)) as (state' & -> & Hn & Hf & Hr & Hp & Hc).
  destruct (updateBusState_fields up a state) as (Hn' & Hf' & Hr' & Hp' & Hc').
  exists state'. rewrite Hn, Hf, Hr, Hp, Hc. done.
Qed.

Lemma foldl_observe_last up l o state' :
  l ≠ [] →
  foldl (observe up) o l = Some state' →
  BusState.LastSeenAt state' = now up.
Proof.
  intros Hl. destruct o as [state|].
  - destruct (foldl_observe_closest up l state) as (s1 & E & Hlast & _).
    rewrite E. intros [= <-]. by apply Hlast.
  - destruct l as [|a l]; [done|]. cbn [foldl observe].
    destruct (foldl_observe_closest up l (newBusState up a)) as (s1 & E & Hlast & _).
    rewrite E. intros [= <-]. destruct l as [|b l]; [|by apply Hlast].
    simpl in E. by injection E as <-.
Qed.

Lemma recordPassage_PlateNo cfg up p state :
  BusState.PlateNo (recordPassage cfg up p state).1 = BusState.PlateNo state.
Proof. unfold recordPassage, saveArrival. by repeat case_match. Qed.

(** The entry a plate has after a cycle whose snapshot fetch succeeded:
    either the plate was missing and its entry went through the passage
    block and both cleanups, or it was listed and its entry is the fold of
    its readings, young enough for the age ceiling. *)
Lemma entryTick_cases cfg up p o arrivals state' :
  GetRouteArrivalList up = Some arrivals →
  (entryTick cfg up p o).1 = Some state' →
  (sightings p arrivals = []
   ∧ ∃ state, o = Some state
       ∧ time.Sub (now up) (BusState.LastSeenAt state) ≤ 10 * time.Minute
       ∧ state' = (if BusState.Recorded state then state
                   else (recordPassage cfg up p state).1))
  ∨ (sightings p arrivals ≠ []
     ∧ foldl (observe up) o (sightings p arrivals) = Some state')
  .
Proof.
  intros Ha. unfold entryTick. rewrite Ha.
  destruct (foldl (observe up) o (sightings p arrivals)) as [s1|] eqn:E; [|done].
  destruct (sightings p arrivals) as [|a l] eqn:Es.
  - simpl in E. subst o. cbn [fst]. rewrite passedEntry_entry.
    destruct (Z.gtb_spec (time.Sub (now up) (BusState.LastSeenAt s1))
                (10 * time.Minute)); [done|].
    simpl. intros Hc. apply ceiling_Some in Hc as ->. left. split; [done|].
    exists s1. done.
  - cbn [fst]. intros Hc. apply ceiling_Some in Hc as ->. right. done.
Qed.

Lemma entryTick_young cfg up p o arrivals state' :
  GetRouteArrivalList up = Some arrivals →
  (entryTick cfg up p o).1 = Some state' →
  time.Sub (now up) (BusState.FirstSeenAt state') ≤ 1 * time.Hour.
Proof.
  intros Ha. unfold entryTick. rewrite Ha.
  assert (Hc : ∀ o', o' ≫= ceiling up = Some state' →
            time.Sub (now up) (BusState.FirstSeenAt state') ≤ 1 * time.Hour).
  { intros [s|]; simpl; [|done]. unfold ceiling.
    destruct (Z.gtb_spec (time.Sub (now up) (BusState.FirstSeenAt s)) (1 * time.Hour));
      [done|]. by intros [= <-]. }
  destruct (foldl (observe up) o (sightings p arrivals)) as [s1|]; [|done].
  destruct (sightings p arrivals); cbn [fst]; [apply Hc|apply (Hc (Some s1))].
Qed.

(** X1. Bounded age.  After a cycle whose snapshot fetch succeeded, every
    tracked entry was first seen at most an hour before the cycle; an entry
    whose plate is missing from the snapshot was last seen at most ten
    minutes before it, and an entry whose plate is listed was last seen at
    the time of the cycle. *)
Theorem tracked_entries_are_recent (cfg : RouteConfig.t) (up : Upstream)
    (m : gmap string BusState.t) (arrivals : list BusArrivalInfo.t)
    (p : string) (state' : BusState.t) :
  GetRouteArrivalList up = Some arrivals →
  (collectData cfg up m).1 !! p = Some state' →
  time.Sub (now up) (BusState.FirstSeenAt state') ≤ 1 * time.Hour
  ∧ (sightings p arrivals = [] →
     time.Sub (now up) (BusState.LastSeenAt state') ≤ 10 * time.Minute)
  ∧ (sightings p arrivals ≠ [] → BusState.LastSeenAt state' = now up).
Proof.
  intros Ha. rewrite collectData_lookup. intros Hs.
  split; [by eapply entryTick_young|].
  destruct (entryTick_cases _ _ _ _ _ _ Ha Hs)
    as [(Hab & state & Ho & Hten & ->)|(Hseen & Hfold)].
  - split; [|done]. intros _. destruct (BusState.Recorded state); [done|].
    destruct (recordPassage_fields cfg up p state) as (_ & -> & _). done.
  - split; [done|]. intros _. by eapply foldl_observe_last.
Qed.

(** The waiting entry of the scenario is within both bounds. *)
Lemma tracked_entries_are_recent_witness :
  time.Sub (now (poll 1060 [] (Some [located "A1" (-1)]) true))
    (BusState.FirstSeenAt waitingA1) ≤ 1 * time.Hour
  ∧ (sightings "A1" [] = [] →
     time.Sub (now (poll 1060 [] (Some [located "A1" (-1)]) true))
       (BusState.LastSeenAt waitingA1) ≤ 10 * time.Minute)
  ∧ (sightings "A1" [] ≠ [] →
     BusState.LastSeenAt waitingA1 = now (poll 1060 [] (Some [located "A1" (-1)]) true)).
Proof.
  refine (tracked_entries_are_recent cfg0
            (poll 1060 [] (Some [located "A1" (-1)]) true) approaching [] "A1"
            waitingA1 _ _).
  - reflexivity.
  - vm_compute. reflexivity.
Defined.

Lemma sightings_elem p arrivals a :
  a ∈ sightings p arrivals →
  p ≠ "" ∧ a ∈ arrivals ∧ BusArrivalInfo.PlateNo a = p.
Proof.
  unfold sightings. case_decide as Hp; [by intros Hin%elem_of_nil|].
  intros [? ?]%list_elem_of_filter. done.
Qed.

Lemma sightings_nonempty p arrivals :
  sightings p arrivals ≠ [] →
  p ≠ "" ∧ ∃ a, a ∈ arrivals ∧ BusArrivalInfo.PlateNo a = p.
Proof.
  destruct (sightings p arrivals) as [|a l] eqn:E; [done|]. intros _.
  destruct (sightings_elem p arrivals a) as (? & ? & ?); [rewrite E; left|].
  eauto.
Qed.

(** X2. A new plate.  A plate that is not tracked and is listed in the
    snapshot is tracked after the cycle: first and last seen at the time of
    the cycle, not finalized, never passed, no attempt counted, no [Create]
    call made for it, and its approach reading is that of a closest of its
    readings in the snapshot. *)
Theorem new_plate_is_tracked (cfg : RouteConfig.t) (up : Upstream)
    (m : gmap string BusState.t) (arrivals : list BusArrivalInfo.t)
    (p : string) :
  m !! p = None →
  GetRouteArrivalList up = Some arrivals →
  sightings p arrivals ≠ [] →
  callsFor p (collectData cfg up m).2 = []
  ∧ ∃ state',
      (collectData cfg up m).1 !! p = Some state'
      ∧ BusState.PlateNo state' = p
      ∧ BusState.FirstSeenAt state' = now up
      ∧ BusState.LastSeenAt state' = now up
      ∧ BusState.Recorded state' = false
      ∧ BusState.PassedAt state' = 0
      ∧ BusState.RetryCount state' = 0
      ∧ ∃ a, a ∈ sightings p arrivals
          ∧ BusState.SeatsBefore state' = BusArrivalInfo.RemainSeatCnt a
          ∧ BusState.LocationNo state' = BusArrivalInfo.LocationNo1 a
          ∧ Forall (λ b, BusArrivalInfo.LocationNo1 a ≤ BusArrivalInfo.LocationNo1 b)
              (sightings p arrivals).
Proof.
  intros Hm Ha Hs. rewrite collectData_calls, collectData_lookup, Hm.
  unfold entryTick. rewrite Ha.
  destruct (sightings p arrivals) as [|a l] eqn:Es; [done|].
  assert (Hpa : BusArrivalInfo.PlateNo a = p).
  { apply (sightings_elem p arrivals a). rewrite Es. left. }
  cbn [foldl observe].
  destruct (foldl_observe_fields up l (newBusState up a))
    as (state' & E & Hn & Hf & Hr & Hp & Hc).
  destruct (foldl_observe_closest up l (newBusState up a))
    as (s1 & E1 & Hlast & Hcases).
  rewrite E in E1. injection E1 as <-. rewrite E. cbn [fst snd].
  split; [done|]. exists state'.
  rewrite ceiling_young by (rewrite Hf; simpl; by rewrite Sub_self).
  split; [done|]. split; [by rewrite Hn|]. split; [done|]. split.
  { destruct l as [|b l]; [|by apply Hlast]. simpl in E. by injection E as <-. }
  split; [done|]. split; [done|]. split; [done|].
  destruct Hcases as [(Hsb & Hlo & Hall)|(b & Hb & Hlt & Hsb & Hlo & Hall)].
  - exists a. split; [left|]. split; [done|]. split; [done|].
    constructor; [lia|done].
  - exists b. split; [by right|]. split; [done|]. split; [done|].
    simpl in Hlt. constructor; [lia|done].
Qed.

(** A first reading of plate A1 on an empty map. *)
Lemma new_plate_is_tracked_witness :
  callsFor "A1" (collectData cfg0 (poll 1000 [reading "A1" 3 10] None true) ∅).2 = [].
Proof.
  refine (proj1 (new_plate_is_tracked cfg0 (poll 1000 [reading "A1" 3 10] None true)
                   ∅ [reading "A1" 3 10] "A1" _ _ _)).
  - reflexivity.
  - reflexivity.
  - vm_compute. discriminate.
Defined.

Lemma entryTick_origin cfg up p o :
  is_Some (entryTick cfg up p o).1 →
  is_Some o
  ∨ ∃ arrivals, GetRouteArrivalList up = Some arrivals ∧ sightings p arrivals ≠ [].
Proof.
  destruct o as [state|]; [left; eauto|]. unfold entryTick.
  destruct (GetRouteArrivalList up) as [arrivals|]; [|by intros [? ?]].
  destruct (sightings p arrivals) as [|a l] eqn:Es; [by intros [? ?]|].
  intros _. right. exists arrivals. by rewrite Es.
Qed.

Lemma size_list_to_set_le (l : list string) :
  (size (list_to_set l : gset string) ≤ length l)%nat.
Proof.
  induction l as [|x l IH]; [by rewrite list_to_set_nil, size_empty|].
  rewrite list_to_set_cons, size_union_alt, size_singleton. cbn [length].
  assert (size (list_to_set l ∖ {[x]} : gset string)
          ≤ size (list_to_set l : gset string))%nat
    by (apply subseteq_size; set_solver).
  lia.
Qed.

Lemma collectData_origin cfg up (m : gmap string BusState.t) p :
  is_Some ((collectData cfg up m).1 !! p) →
  is_Some (m !! p)
  ∨ (p ≠ ""
     ∧ ∃ arrivals a, GetRouteArrivalList up = Some arrivals
                     ∧ a ∈ arrivals ∧ BusArrivalInfo.PlateNo a = p).
Proof.
  rewrite collectData_lookup. intros H.
  apply entryTick_origin in H as [H|(arrivals & Ha & Hs)]; [by left|].
  right. apply sightings_nonempty in Hs as (Hne & a & Hin & Hp). eauto 6.
Qed.

Lemma collectData_size cfg up (m : gmap string BusState.t) :
  (size (collectData cfg up m).1
   ≤ size m + length (default [] (GetRouteArrivalList up)))%nat.
Proof.
  rewrite <- !size_dom.
  transitivity (size (dom m ∪ list_to_set
    (BusArrivalInfo.PlateNo <$> default [] (GetRouteArrivalList up)) : gset string)).
  - apply subseteq_size. intros p Hp. apply elem_of_dom in Hp.
    apply collectData_origin in Hp as [Hp|(_ & arrivals & a & -> & Hin & <-)].
    + apply elem_of_union_l. by apply elem_of_dom.
    + apply elem_of_union_r, elem_of_list_to_set, list_elem_of_fmap. eauto.
  - rewrite size_union_alt.
    set (names := BusArrivalInfo.PlateNo <$> default [] (GetRouteArrivalList up)).
    assert (size (list_to_set names ∖ dom m : gset string)
            ≤ size (list_to_set names : gset string))%nat
      by (apply subseteq_size; set_solver).
    pose proof (size_list_to_set_le names) as Hle.
    unfold names in Hle at 2. rewrite length_fmap in Hle. lia.
Qed.

(** X3. No entry without a sighting.  A plate tracked after a cycle was
    tracked before it or is a nonempty plate listed in the snapshot of that
    cycle; readings with an empty plate create no entry; and the number of
    tracked plates grows by at most the length of the snapshot. *)
Theorem no_entry_without_sighting (cfg : RouteConfig.t) (up : Upstream)
    (m : gmap string BusState.t) :
  (∀ p, is_Some ((collectData cfg up m).1 !! p) →
        is_Some (m !! p)
        ∨ (p ≠ ""
           ∧ ∃ arrivals a, GetRouteArrivalList up = Some arrivals
                           ∧ a ∈ arrivals ∧ BusArrivalInfo.PlateNo a = p))
  ∧ (m !! "" = None → (collectData cfg up m).1 !! "" = None)
  ∧ (size (collectData cfg up m).1
     ≤ size m + length (default [] (GetRouteArrivalList up)))%nat.
Proof.
  split; [intros p; apply collectData_origin|]. split; [|apply collectData_size].
  intros Hm. apply eq_None_not_Some. intros H.
  apply collectData_origin in H as [H|[H _]]; [|done]. rewrite Hm in H. by destruct H.
Qed.

(** A snapshot with a reading that has no plate. *)
Lemma no_entry_without_sighting_witness :
  (collectData cfg0 (poll 1000 [reading "" 2 5; reading "A1" 3 10] None true) ∅).1
    !! "" = None.
Proof.
  refine (proj1 (proj2 (no_entry_without_sighting cfg0
            (poll 1000 [reading "" 2 5; reading "A1" 3 10] None true) ∅)) _).
  reflexivity.
Defined.

Lemma foldl_observe_new up a l state' :
  foldl (observe up) None (a :: l) = Some state' →
  BusState.PlateNo state' = BusArrivalInfo.PlateNo a
  ∧ BusState.FirstSeenAt state' = now up
  ∧ BusState.LastSeenAt state' = now up.
Proof.
  intros E. split; [|split].
  - cbn [foldl observe] in E.
    destruct (foldl_observe_fields up l (newBusState up a)) as (s1 & E1 & Hn & _).
    rewrite E1 in E. by injection E as <-.
  - cbn [foldl observe] in E.
    destruct (foldl_observe_fields up l (newBusState up a)) as (s1 & E1 & _ & Hf & _).
    rewrite E1 in E. by injection E as <-.
  - by apply (foldl_observe_last up (a :: l) None).
Qed.

(** X4. Keys and plates agree.  If every entry carries its key as
    [PlateNo], so does every entry after a cycle; the empty map, with which
    a worker starts, is such a map. *)
Theorem plate_is_key (cfg : RouteConfig.t) (up : Upstream)
    (m : gmap string BusState.t) :
  plateKeyed ∅ ∧ (plateKeyed m → plateKeyed (collectData cfg up m).1).
Proof.
  split; [apply map_Forall_empty|].
  intros Hm p state'. rewrite collectData_lookup.
  destruct (GetRouteArrivalList up) as [arrivals|] eqn:Ha.
  - intros Hs. destruct (entryTick_cases _ _ _ _ _ _ Ha Hs)
      as [(Hab & state & Ho & _ & ->)|(Hseen & Hfold)].
    + apply Hm in Ho. destruct (BusState.Recorded state); [done|].
      by rewrite recordPassage_PlateNo.
    + destruct (m !! p) as [state|] eqn:Ho.
      * destruct (foldl_observe_fields up (sightings p arrivals) state)
          as (s1 & E & Hn & _).
        rewrite E in Hfold. injection Hfold as <-. rewrite Hn. by apply Hm.
      * destruct (sightings p arrivals) as [|a l] eqn:Es; [done|].
        apply foldl_observe_new in Hfold as (-> & _).
        apply (sightings_elem p arrivals a). rewrite Es. left.
  - unfold entryTick. rewrite Ha. simpl. apply Hm.
Qed.

(** The map after the first cycle of the scenario. *)
Lemma plate_is_key_witness :
  plateKeyed (collectData cfg0 (poll 1000 [reading "A1" 3 10] None true) ∅).1.
Proof.
  refine (proj2 (plate_is_key cfg0 (poll 1000 [reading "A1" 3 10] None true) ∅) _).
  apply map_Forall_empty.
Defined.

(** X5. Timestamps stay in order.  If in every entry firstSeenAt is not
    after lastSeenAt and lastSeenAt is not after [t], and the clock of the
    cycle is not before [t], then after the cycle firstSeenAt is not after
    lastSeenAt and lastSeenAt is not after the time of the cycle. *)
Theorem timestamps_stay_ordered (cfg : RouteConfig.t) (up : Upstream)
    (m : gmap string BusState.t) (t : Z) :
  timely t m → t ≤ now up → timely (now up) (collectData cfg up m).1.
Proof.
  intros Hm Ht p state'. rewrite collectData_lookup.
  destruct (GetRouteArrivalList up) as [arrivals|] eqn:Ha.
  - intros Hs. destruct (entryTick_cases _ _ _ _ _ _ Ha Hs)
      as [(Hab & state & Ho & _ & ->)|(Hseen & Hfold)].
    + apply Hm in Ho as [H1 H2]. destruct (BusState.Recorded state); [lia|].
      destruct (recordPassage_fields cfg up p state) as (-> & -> & _). lia.
    + destruct (m !! p) as [state|] eqn:Ho.
      * rewrite (foldl_observe_last up _ _ _ Hseen Hfold).
        destruct (foldl_observe_fields up (sightings p arrivals) state)
          as (s1 & E & _ & Hf & _).
        rewrite E in Hfold. injection Hfold as <-. rewrite Hf.
        apply Hm in Ho as [H1 H2]. lia.
      * destruct (sightings p arrivals) as [|a l] eqn:Es; [done|].
        apply foldl_observe_new in Hfold as (_ & -> & ->). lia.
  - unfold entryTick. rewrite Ha. simpl. intros Ho.
    apply Hm in Ho as [H1 H2]. simpl. lia.
Qed.

(** The cycle in which the plate of the scenario is first missing. *)
Lemma timestamps_stay_ordered_witness :
  timely (now (poll 1060 [] (Some [located "A1" (-1)]) true))
    (collectData cfg0 (poll 1060 [] (Some [located "A1" (-1)]) true)
       {["A1" := approachingA1]}).1.
Proof.
  refine (timestamps_stay_ordered cfg0 (poll 1060 [] (Some [located "A1" (-1)]) true)
            {["A1" := approachingA1]} 1030000000000 _ _).
  - apply map_Forall_singleton. simpl. lia.
  - vm_compute. discriminate.
Defined.

(** X6. What is handed to the sink.  Every [Create] call of a cycle is for
    a plate that was tracked and not finalized before the cycle and is
    missing from its snapshot; the record carries the configuration ID, the
    entry's lastSeenAt and seats-before, and as seats-after exactly what
    the confirmation lookup of that cycle returned; a record without
    seats-after is handed over only once two minutes have passed since
    passedAt; and the logged outcome is the sink's answer. *)
Theorem create_calls_are_passages (cfg : RouteConfig.t) (up : Upstream)
    (m : gmap string BusState.t) (c : BusArrival.t * bool) :
  c ∈ (collectData cfg up m).2 →
  ∃ arrivals state,
    GetRouteArrivalList up = Some arrivals
    ∧ m !! BusArrival.BusNumber c.1 = Some state
    ∧ BusState.Recorded state = false
    ∧ sightings (BusArrival.BusNumber c.1) arrivals = []
    ∧ c.1 = BusArrival.mk (RouteConfig.ID cfg) (BusArrival.BusNumber c.1)
              (BusState.LastSeenAt state) (Some (BusState.SeatsBefore state))
              (getSeatsAfterFromBusLocation up (RouteConfig.RouteID cfg)
                 (BusArrival.BusNumber c.1))
    ∧ c.2 = Create up c.1
    ∧ (BusArrival.SeatsAfter c.1 = None →
       2 * time.Minute ≤
         time.Sub (now up)
           (if time.IsZero (BusState.PassedAt state) then now up
            else BusState.PassedAt state)).
Proof.
  intros Hc. remember (BusArrival.BusNumber c.1) as p eqn:Hp.
  assert (Hin : c ∈ callsFor p (collectData cfg up m).2)
    by (by apply list_elem_of_filter).
  rewrite collectData_calls in Hin. unfold entryTick in Hin.
  destruct (GetRouteArrivalList up) as [arrivals|]; [|by apply elem_of_nil in Hin].
  exists arrivals.
  destruct (m !! p) as [state|] eqn:Hm.
  - destruct (foldl_observe_Some up (sightings p arrivals) state) as (s1 & E & _).
    rewrite E in Hin.
    destruct (sightings p arrivals) as [|a l] eqn:Es;
      [|by apply elem_of_nil in Hin].
    simpl in E. injection E as <-. cbn [snd] in Hin.
    rewrite passedEntry_calls in Hin.
    destruct (BusState.Recorded state) eqn:Hrec; [by apply elem_of_nil in Hin|].
    exists state. split; [done|]. split; [done|]. split; [done|]. split; [done|].
    unfold recordPassage in Hin.
    set (state1 := if time.IsZero (BusState.PassedAt state)
                   then BusState.with_PassedAt (now up) state else state) in Hin.
    assert (Hl : BusState.LastSeenAt state1 = BusState.LastSeenAt state)
      by (subst state1; by destruct (time.IsZero (BusState.PassedAt state))).
    assert (Hs : BusState.SeatsBefore state1 = BusState.SeatsBefore state)
      by (subst state1; by destruct (time.IsZero (BusState.PassedAt state))).
    assert (Hpa : BusState.PassedAt state1 =
                    if time.IsZero (BusState.PassedAt state) then now up
                    else BusState.PassedAt state)
      by (subst state1; by destruct (time.IsZero (BusState.PassedAt state))).
    destruct (getSeatsAfterFromBusLocation up (RouteConfig.RouteID cfg) p) as [v|].
    + rewrite saveArrival_calls, Hl, Hs in Hin.
      apply list_elem_of_singleton in Hin. subst c. done.
    + cbn [BusState.PassedAt BusState.with_RetryCount] in Hin. rewrite Hpa in Hin.
      destruct (Z.ltb_spec
                  (time.Sub (now up)
                     (if time.IsZero (BusState.PassedAt state) then now up
                      else BusState.PassedAt state))
                  (2 * time.Minute)) as [Hlt|Hge];
        [by apply elem_of_nil in Hin|].
      rewrite saveArrival_calls in Hin. cbn in Hin. rewrite Hl, Hs in Hin.
      apply list_elem_of_singleton in Hin. subst c. done.
  - destruct (foldl (observe up) None (sightings p arrivals)) as [s1|] eqn:E;
      [|by apply elem_of_nil in Hin].
    destruct (sightings p arrivals) as [|a l]; [done|by apply elem_of_nil in Hin].
Qed.

(** The record of the scenario. *)
Lemma create_calls_are_passages_witness :
  ∃ arrivals state,
    GetRouteArrivalList (poll 1090 [] (Some [located "A1" 4]) true) = Some arrivals
    ∧ justPassed !! "A1" = Some state
    ∧ BusState.Recorded state = false
    ∧ sightings "A1" arrivals = []
    ∧ BusArrival.mk 1 "A1" 1030000000000 (Some 6) (Some 4) =
        BusArrival.mk (RouteConfig.ID cfg0) "A1"
          (BusState.LastSeenAt state) (Some (BusState.SeatsBefore state))
          (getSeatsAfterFromBusLocation (poll 1090 [] (Some [located "A1" 4]) true)
             (RouteConfig.RouteID cfg0) "A1")
    ∧ true = Create (poll 1090 [] (Some [located "A1" 4]) true)
               (BusArrival.mk 1 "A1" 1030000000000 (Some 6) (Some 4))
    ∧ (Some 4 = None →
       2 * time.Minute ≤
         time.Sub (now (poll 1090 [] (Some [located "A1" 4]) true))
           (if time.IsZero (BusState.PassedAt state)
            then now (poll 1090 [] (Some [located "A1" 4]) true)
            else BusState.PassedAt state)).
Proof.
  refine (create_calls_are_passages cfg0 (poll 1090 [] (Some [located "A1" 4]) true)
            justPassed (BusArrival.mk 1 "A1" 1030000000000 (Some 6) (Some 4), true) _).
  vm_compute. left.
Defined.

(** ** Passages that do not go the usual way *)

(** The entry left by the tick in which the timeout is reached, when
    neither cleanup rule applies. *)
Lemma entryTick_timeout_entry cfg up p state :
  unconfirmed cfg p up →
  BusState.Recorded state = false →
  BusState.PassedAt state ≠ 0 →
  2 * time.Minute ≤ time.Sub (now up) (BusState.PassedAt state) →
  kept state up →
  let busArrival :=
    BusArrival.mk (RouteConfig.ID cfg) p (BusState.LastSeenAt state)
      (Some (BusState.SeatsBefore state)) None in
  (entryTick cfg up p (Some state)).1 =
    Some (BusState.with_Recorded (Create up busArrival)
            (BusState.with_RetryCount (wrap_int (BusState.RetryCount state + 1)) state)).
Proof.
  intros [(arrivals & Ha & Hs) Hconf] Hrec Hpassed Hlate [Hten Hhour] busArrival.
  rewrite (entryTick_absent _ _ _ _ arrivals) by done.
  rewrite passedEntry_entry, Hrec. cbn [fst].
  destruct (Z.gtb_spec (time.Sub (now up) (BusState.LastSeenAt state))
              (10 * time.Minute)); [lia|].
  unfold recordPassage. rewrite Hconf. unfold time.IsZero.
  destruct (Z.eqb_spec (BusState.PassedAt state) 0); [done|]. simpl.
  destruct (Z.ltb_spec (time.Sub (now up) (BusState.PassedAt state))
              (2 * time.Minute)); [lia|].
  fold busArrival. unfold saveArrival.
  destruct (Create up busArrival); simpl; rewrite ceiling_young by done;
    destruct state; simpl in *; subst; reflexivity.
Qed.

(** X7. The timeout runs from the first disappearance.  Take an
    unfinalized entry whose passedAt is set (its plate was missing once).
    A cycle whose fetched snapshot lists the plate again, once, at most one
    hour after firstSeenAt, keeps the entry, leaves passedAt as it is and
    makes no [Create] call for the plate.  If in the cycle after that the
    plate is missing from the fetched snapshot, the confirmation lookup
    yields nothing and two minutes have passed since that first passedAt,
    the record without seats-after is handed over in that very cycle, with
    the time of the re-sighting as arrival time and the approach reading
    the entry has after the re-sighting as seats-before. *)
Theorem timeout_runs_from_first_disappearance (cfg : RouteConfig.t) (p : string)
    (m : gmap string BusState.t) (state : BusState.t)
    (back gone : Upstream) (arrivals : list BusArrivalInfo.t) (a : BusArrivalInfo.t) :
  m !! p = Some state →
  BusState.Recorded state = false →
  BusState.PassedAt state ≠ 0 →
  GetRouteArrivalList back = Some arrivals →
  sightings p arrivals = [a] →
  time.Sub (now back) (BusState.FirstSeenAt state) ≤ 1 * time.Hour →
  unconfirmed cfg p gone →
  2 * time.Minute ≤ time.Sub (now gone) (BusState.PassedAt state) →
  let busArrival :=
    BusArrival.mk (RouteConfig.ID cfg) p (now back)
      (Some (BusState.SeatsBefore (updateBusState back a state))) None in
  (collectData cfg back m).1 !! p = Some (updateBusState back a state)
  ∧ BusState.PassedAt (updateBusState back a state) = BusState.PassedAt state
  ∧ callsFor p (collectData cfg back m).2 = []
  ∧ callsFor p (collectData cfg gone (collectData cfg back m).1).2 =
      [(busArrival, Create gone busArrival)].
Proof.
  intros Hm Hrec Hpassed Ha Hs Hyoung Hunc Hlate busArrival.
  destruct (updateBusState_fields back a state) as (_ & Hf & Hr & Hp & _).
  assert (Hback : (collectData cfg back m).1 !! p = Some (updateBusState back a state)).
  { rewrite (collectData_seen _ _ _ _ arrivals a), Hm by done. simpl.
    apply ceiling_young. by rewrite Hf. }
  split; [done|]. split; [done|]. split.
  { by rewrite collectData_calls, (entryTick_seen _ _ _ _ arrivals a). }
  rewrite collectData_calls, Hback.
  destruct (entryTick_timeout cfg gone p (updateBusState back a state)) as [Hc _];
    try done; try congruence.
  rewrite Hc. unfold busArrival, updateBusState. by case_match.
Qed.

(** The plate of the scenario shows up again at second 1090 and is missing
    at second 1200, 140 seconds after it was first missing. *)
Lemma timeout_runs_from_first_disappearance_witness :
  callsFor "A1"
    (collectData cfg0 (poll 1200 [] None true)
       (collectData cfg0 (poll 1090 [reading "A1" 0 5] None true) justPassed).1).2 =
  [(BusArrival.mk 1 "A1" 1090000000000 (Some 5) None, true)].
Proof.
  refine (proj2 (proj2 (proj2 (timeout_runs_from_first_disappearance cfg0 "A1"
            justPassed waitingA1 (poll 1090 [reading "A1" 0 5] None true)
            (poll 1200 [] None true) [reading "A1" 0 5] (reading "A1" 0 5)
            _ _ _ _ _ _ _ _)))).
  - vm_compute. reflexivity.
  - reflexivity.
  - vm_compute. discriminate.
  - reflexivity.
  - reflexivity.
  - vm_compute. discriminate.
  - split; [exists []; split; reflexivity|reflexivity].
  - vm_compute. discriminate.
Defined.

(** The cycle of an untracked plate that the snapshot does not list. *)
Lemma entryTick_untracked cfg up p arrivals :
  GetRouteArrivalList up = Some arrivals →
  sightings p arrivals = [] →
  entryTick cfg up p None = (None, []).
Proof. intros Ha Hs. unfold entryTick. by rewrite Ha, Hs. Qed.

(** The cleanup rules on the entry of a missing, unfinalized plate. *)
Lemma entryTick_reclaimed cfg up p state arrivals :
  GetRouteArrivalList up = Some arrivals →
  sightings p arrivals = [] →
  BusState.Recorded state = false →
  10 * time.Minute < time.Sub (now up) (BusState.LastSeenAt state)
  ∨ 1 * time.Hour < time.Sub (now up) (BusState.FirstSeenAt state) →
  (entryTick cfg up p (Some state)).1 = None.
Proof.
  intros Ha Hs Hrec Hold.
  rewrite (entryTick_absent _ _ _ _ arrivals) by done.
  rewrite passedEntry_entry, Hrec. cbn [fst].
  destruct (Z.gtb_spec (time.Sub (now up) (BusState.LastSeenAt state))
              (10 * time.Minute)); [done|].
  simpl. unfold ceiling.
  destruct (recordPassage_fields cfg up p state) as (Hf & _). rewrite Hf.
  destruct (Z.gtb_spec (time.Sub (now up) (BusState.FirstSeenAt state))
              (1 * time.Hour)); [done|]. lia.
Qed.

(** X8. A refused record.  Take an unfinalized entry whose passedAt is
    set, and two consecutive cycles in each of which the plate is missing
    from the fetched snapshot, the confirmation lookup yields nothing and
    two minutes have passed since passedAt.  The first cycle hands the
    record without seats-after to the sink; suppose the sink refuses it.
    If neither cleanup rule applies in that cycle (at most ten minutes
    since lastSeenAt and at most an hour since firstSeenAt), the entry
    stays, unfinalized, and the second cycle hands the same record (same
    arrival time, same seats-before, no seats-after) to the sink again.
    If a cleanup rule applies, the first cycle removes the entry after the
    refused call, and the second cycle hands nothing over for the plate. *)
Theorem refused_record_is_offered_again (cfg : RouteConfig.t) (p : string)
    (m : gmap string BusState.t) (state : BusState.t) (up1 up2 : Upstream) :
  m !! p = Some state →
  BusState.Recorded state = false →
  BusState.PassedAt state ≠ 0 →
  unconfirmed cfg p up1 →
  unconfirmed cfg p up2 →
  2 * time.Minute ≤ time.Sub (now up1) (BusState.PassedAt state) →
  2 * time.Minute ≤ time.Sub (now up2) (BusState.PassedAt state) →
  let busArrival :=
    BusArrival.mk (RouteConfig.ID cfg) p (BusState.LastSeenAt state)
      (Some (BusState.SeatsBefore state)) None in
  Create up1 busArrival = false →
  callsFor p (collectData cfg up1 m).2 = [(busArrival, false)]
  ∧ (kept state up1 →
     is_Some ((collectData cfg up1 m).1 !! p)
     ∧ flag p (collectData cfg up1 m).1 = false
     ∧ callsFor p (collectData cfg up2 (collectData cfg up1 m).1).2 =
         [(busArrival, Create up2 busArrival)])
  ∧ (10 * time.Minute < time.Sub (now up1) (BusState.LastSeenAt state)
     ∨ 1 * time.Hour < time.Sub (now up1) (BusState.FirstSeenAt state) →
     (collectData cfg up1 m).1 !! p = None
     ∧ callsFor p (collectData cfg up2 (collectData cfg up1 m).1).2 = []).
Proof.
  intros Hm Hrec Hpassed Hu1 Hu2 Hl1 Hl2 busArrival Hrefused.
  destruct (entryTick_timeout cfg up1 p state) as [Hc1 _]; try done.
  fold busArrival in Hc1. rewrite Hrefused in Hc1.
  split; [by rewrite collectData_calls, Hm|]. split.
  - intros Hkept.
    pose proof (entryTick_timeout_entry cfg up1 p state Hu1 Hrec Hpassed Hl1 Hkept) as He1.
    simpl in He1. fold busArrival in He1. rewrite Hrefused in He1.
    unfold flag. rewrite !collectData_calls, !collectData_lookup, Hm, He1.
    split; [done|]. split; [done|].
    destruct (entryTick_timeout cfg up2 p
                (BusState.with_Recorded false
                   (BusState.with_RetryCount (wrap_int (BusState.RetryCount state + 1))
                      state))) as [Hc2 _]; try done.
  - intros Hold.
    destruct Hu1 as [(arrivals1 & Ha1 & Hs1) _].
    destruct Hu2 as [(arrivals2 & Ha2 & Hs2) _].
    assert (Hgone : (collectData cfg up1 m).1 !! p = None).
    { rewrite collectData_lookup, Hm.
      by apply (entryTick_reclaimed _ _ _ _ arrivals1). }
    split; [done|].
    by rewrite collectData_calls, Hgone, (entryTick_untracked _ _ _ arrivals2).
Qed.

(** The sink refuses the record at second 1180 and gets it again at second
    1210. *)
Lemma refused_record_is_offered_again_witness :
  callsFor "A1"
    (collectData cfg0 (poll 1210 [] None true)
       (collectData cfg0 (poll 1180 [] None false) justPassed).1).2 =
  [(BusArrival.mk 1 "A1" 1030000000000 (Some 6) None, true)].
Proof.
  refine (proj2 (proj2 (proj1 (proj2 (refused_record_is_offered_again cfg0 "A1"
            justPassed waitingA1 (poll 1180 [] None false) (poll 1210 [] None true)
            _ _ _ _ _ _ _ _)) _))).
  - vm_compute. reflexivity.
  - reflexivity.
  - vm_compute. discriminate.
  - split; [exists []; split; reflexivity|reflexivity].
  - split; [exists []; split; reflexivity|reflexivity].
  - vm_compute. discriminate.
  - vm_compute. discriminate.
  - reflexivity.
  - split; vm_compute; discriminate.
Defined.

(** ** The worker loop, signal by signal *)

Lemma workerLoop_app startHour endHour cfg before after :
  ∀ (m : gmap string BusState.t) calls,
    workerLoop startHour endHour cfg (before ++ after) m calls =
      let w := workerLoop startHour endHour cfg before m calls in
      if returned w then w
      else workerLoop startHour endHour cfg after (busStates w) (created w).
Proof.
  induction before as [|sig before IH]; intros m calls; [done|].
  destruct sig as [| |hour up]; simpl; try done.
  case_match; apply IH.
Qed.

(** The ticks of a worker, run as collection cycles. *)
Lemma workerLoop_cycles startHour endHour cfg ticks tail :
  ∀ (m : gmap string BusState.t) calls,
    workerLoop startHour endHour cfg ((tickOf <$> ticks) ++ tail) m calls =
      workerLoop startHour endHour cfg tail
        (afterTicks cfg (inWindow startHour endHour ticks) m)
        (calls ++ concat (snd <$> runTicks cfg (inWindow startHour endHour ticks) m)).
Proof.
  induction ticks as [|[hour up] ticks IH]; intros m calls.
  - simpl. by rewrite app_nil_r.
  - rewrite fmap_cons. cbn [app tickOf fst snd workerLoop].
    unfold inWindow.
    destruct (isWithinTimeWindow startHour endHour hour) eqn:Hopen.
    + rewrite filter_cons_True by done. rewrite fmap_cons. cbn [snd].
      rewrite IH. unfold inWindow. cbn [runTicks]. rewrite fmap_cons.
      simpl. by rewrite app_assoc.
    + rewrite filter_cons_False by (simpl; by rewrite Hopen). apply IH.
Qed.

(** X9. What a worker has done when it leaves its loop.  Let the [select]
    of a worker take a sequence of ticks and then the case of the
    cancelled main context or of the closed stop channel.  The worker then
    returns, and its map and its [Create] calls are exactly those of the
    collection cycles of the ticks taken inside the time window, run in
    order from the empty map, each on the map left by the one before:
    there is no last cycle and no flush of the entries still pending, and
    cases that would come after do not count.  As long as only ticks are
    taken the worker has not returned, with the same map and calls.  (The
    [select] gives the two cases no priority over a ready ticker; the
    statement is about the cases taken, not about the moment of the
    cancellation.) *)
Theorem worker_runs_cycles_until_stopped (startHour endHour : Z) (cfg : RouteConfig.t)
    (ticks : list (Z * Upstream)) (sig : Signal) (after : list Signal) :
  sig = ctxDone ∨ sig = stopChanClosed →
  collectForConfig startHour endHour cfg ((tickOf <$> ticks) ++ sig :: after) =
    {| returned := true;
       busStates := afterTicks cfg (inWindow startHour endHour ticks) ∅;
       created := concat (snd <$> runTicks cfg (inWindow startHour endHour ticks) ∅) |}
  ∧ collectForConfig startHour endHour cfg (tickOf <$> ticks) =
      {| returned := false;
         busStates := afterTicks cfg (inWindow startHour endHour ticks) ∅;
         created := concat (snd <$> runTicks cfg (inWindow startHour endHour ticks) ∅) |}.
Proof.
  intros Hsig. unfold collectForConfig. split.
  - rewrite workerLoop_cycles. by destruct Hsig as [-> | ->].
  - rewrite <- (app_nil_r (tickOf <$> ticks)), workerLoop_cycles. done.
Qed.

(** A worker with the window 9-18 takes the first three ticks of the
    scenario, one of them at 8 o'clock, and is then cancelled while the
    plate waits for its confirmation: the tick that would have confirmed
    it comes too late. *)
Lemma worker_runs_cycles_until_stopped_witness :
  collectForConfig 9 18 cfg0
    ((tickOf <$> [(8, poll 970 [reading "A1" 4 12] None true);
                  (9, poll 1000 [reading "A1" 3 10] None true);
                  (9, poll 1030 [reading "A1" 1 6] None true);
                  (9, poll 1060 [] (Some [located "A1" (-1)]) true)])
     ++ ctxDone :: [tickerC 9 (poll 1090 [] (Some [located "A1" 4]) true)]) =
    {| returned := true;
       busStates := afterTicks cfg0 (take 3 journey) ∅;
       created := [] |}.
Proof.
  refine (proj1 (worker_runs_cycles_until_stopped 9 18 cfg0
            [(8, poll 970 [reading "A1" 4 12] None true);
             (9, poll 1000 [reading "A1" 3 10] None true);
             (9, poll 1030 [reading "A1" 1 6] None true);
             (9, poll 1060 [] (Some [located "A1" (-1)]) true)]
            ctxDone [tickerC 9 (poll 1090 [] (Some [located "A1" 4]) true)] _)).
  left. reflexivity.
Defined.

(** X10. Outside the time window a tick does nothing: the snapshot source
    is not asked, the map is not touched and no [Create] call is made; the
    worker goes on as if the ticker had not fired. *)
Theorem tick_outside_window_is_skipped (startHour endHour : Z) (cfg : RouteConfig.t)
    (hour : Z) (up : Upstream) (before after : list Signal) :
  isWithinTimeWindow startHour endHour hour = false →
  collectForConfig startHour endHour cfg (before ++ tickerC hour up :: after) =
    collectForConfig startHour endHour cfg (before ++ after).
Proof.
  intros Hclosed. unfold collectForConfig. rewrite !workerLoop_app. cbn zeta.
  case_match; [done|]. simpl. by rewrite Hclosed.
Qed.

(** A tick at 10 o'clock with the window 22-2. *)
Lemma tick_outside_window_is_skipped_witness :
  collectForConfig 22 2 cfg0 ([] ++ tickerC 10 (poll 1000 [reading "A1" 3 10] None true) :: []) =
    collectForConfig 22 2 cfg0 ([] ++ []).
Proof.
  refine (tick_outside_window_is_skipped 22 2 cfg0 10
            (poll 1000 [reading "A1" 3 10] None true) [] [] _).
  reflexivity.
Defined.

(** ** The supervisor: [Start] and [Stop] *)

Lemma closeAndDelete_fold (base : gmap Z configCollector.t) log (m : gmap Z configCollector.t) :
  ∀ id,
    (map_fold closeAndDelete (base, log) m).1 !! id =
      (if m !! id is Some _ then None else base !! id)
    ∧ stopsOf id (map_fold closeAndDelete (base, log) m).2 =
        stopsOf id log ++ (if m !! id is Some _ then [closeStopChan id] else [])
    ∧ startsOf id (map_fold closeAndDelete (base, log) m).2 = startsOf id log.
Proof.
  apply (map_fold_weak_ind (λ r m', ∀ id,
    r.1 !! id = (if m' !! id is Some _ then None else base !! id)
    ∧ stopsOf id r.2 =
        stopsOf id log ++ (if m' !! id is Some _ then [closeStopChan id] else [])
    ∧ startsOf id r.2 = startsOf id log)).
  - intros id. by rewrite lookup_empty, app_nil_r.
  - intros k cc m' [m1 l1] Hk IH id. destruct (IH id) as (IH1 & IH2 & IH3).
    simpl in IH1, IH2, IH3. unfold closeAndDelete. cbn [fst snd].
    rewrite stopsOf_snoc, startsOf_snoc, IH2, IH3.
    rewrite (decide_False (P := _ = goCollectForConfig id)) by done.
    rewrite app_nil_r.
    destruct (decide (k = id)) as [->|Hne].
    + rewrite lookup_insert_eq, lookup_delete_eq, Hk, decide_True by done.
      by rewrite app_nil_r.
    + rewrite lookup_insert_ne, lookup_delete_ne, IH1 by done.
      rewrite decide_False by congruence. by rewrite app_nil_r.
Qed.

Lemma closeAndDelete_shape (base : gmap Z configCollector.t) log (m : gmap Z configCollector.t) :
  ∃ closed,
    (map_fold closeAndDelete (base, log) m).2 = log ++ (closeStopChan <$> closed)
    ∧ length closed = size m.
Proof.
  apply (map_fold_weak_ind (λ r m',
    ∃ closed, r.2 = log ++ (closeStopChan <$> closed) ∧ length closed = size m')).
  - exists []. by rewrite app_nil_r, map_size_empty.
  - intros k cc m' [m1 l1] Hk (closed & IH & Hlen). simpl in IH.
    exists (closed ++ [k]). unfold closeAndDelete. cbn [snd].
    rewrite IH, fmap_app, app_assoc, length_app, map_size_insert_None by done.
    split; [done|]. simpl. lia.
Qed.

(** What [Stop] does to a running collector. *)
Lemma Stop_running (c : Collector.t) :
  IsRunning c = true →
  (Stop c).1 =
    Collector.mk (Collector.intervalMs c) ∅ None None
      (Collector.startHour c) (Collector.endHour c)
  ∧ (∃ closed,
       (Stop c).2 = cancelMain :: (closeStopChan <$> closed) ++ [wgWait]
       ∧ length closed = size (Collector.collectors c))
  ∧ (∀ id, stopsOf id (Stop c).2 =
           if decide (id ∈ dom (Collector.collectors c)) then [closeStopChan id]
           else [])
  ∧ (∀ id, startsOf id (Stop c).2 = []).
Proof.
  unfold IsRunning, Stop. destruct (Collector.mainCancel c) as [cancel|]; [|done].
  intros _. cbn [fst snd]. split; [|split; [|split]].
  - unfold Collector.with_main, Collector.with_collectors. simpl. f_equal.
    apply map_eq. intros id. rewrite lookup_empty.
    destruct (closeAndDelete_fold (Collector.collectors c) [cancelMain]
                (Collector.collectors c) id) as (-> & _).
    by destruct (Collector.collectors c !! id).
  - destruct (closeAndDelete_shape (Collector.collectors c) [cancelMain]
                (Collector.collectors c)) as (closed & -> & Hlen).
    by exists closed.
  - intros id. rewrite stopsOf_snoc.
    destruct (closeAndDelete_fold (Collector.collectors c) [cancelMain]
                (Collector.collectors c) id) as (_ & -> & _).
    rewrite decide_False by done. rewrite app_nil_r. simpl.
    destruct (Collector.collectors c !! id) as [cc|] eqn:E.
    + rewrite decide_True; [done|]. apply elem_of_dom. eauto.
    + rewrite decide_False; [done|]. intros [? ?]%elem_of_dom. congruence.
  - intros id. rewrite startsOf_snoc.
    destruct (closeAndDelete_fold (Collector.collectors c) [cancelMain]
                (Collector.collectors c) id) as (_ & _ & ->).
    by rewrite decide_False.
Qed.

(** X11. [Stop] tears everything down.  On a running collector [Stop]
    cancels the main context first, closes the stop channel of every
    registered collector exactly once and of no other, starts nothing,
    waits for the workers last, and leaves a collector that is not running
    and has no collector registered, with its settings unchanged. *)
Theorem Stop_tears_down (c : Collector.t) :
  IsRunning c = true →
  (Stop c).1 =
    Collector.mk (Collector.intervalMs c) ∅ None None
      (Collector.startHour c) (Collector.endHour c)
  ∧ (∃ closed,
       (Stop c).2 = cancelMain :: (closeStopChan <$> closed) ++ [wgWait]
       ∧ length closed = size (Collector.collectors c))
  ∧ (∀ id, stopsOf id (Stop c).2 =
           if decide (id ∈ dom (Collector.collectors c)) then [closeStopChan id]
           else [])
  ∧ (∀ id, startsOf id (Stop c).2 = []).
Proof. apply Stop_running. Qed.

(** Stopping the supervisor that runs two collectors. *)
Lemma Stop_tears_down_witness :
  (Stop supervising).1 = Collector.mk 30000 ∅ None None 0 0.
Proof.
  refine (proj1 (Stop_tears_down supervising _)). reflexivity.
Defined.


Lemma Start_result found (c : Collector.t) :
  (Start found c).1 =
    Collector.mk (Collector.intervalMs c)
      (Collector.collectors (syncConfigs found c).1)
      (Some withCancel) (Some cancelFunc)
      (Collector.startHour c) (Collector.endHour c)
  ∧ (Start found c).2 = (syncConfigs found c).2 ++ [goReload].
Proof. unfold Start, syncConfigs. destruct found, c; done. Qed.

Lemma syncConfigs_stops_starts configs (c : Collector.t) id :
  stopsOf id (syncConfigs (Some configs) c).2 =
    (if Collector.collectors c !! id is Some _ then
       if decide (id ∈ activeIDsOf configs) then [] else [closeStopChan id]
     else [])
  ∧ startsOf id (syncConfigs (Some configs) c).2 =
    (if Collector.collectors c !! id is Some _ then []
     else if decide (id ∈ activeIDsOf configs) then [goCollectForConfig id] else []).
Proof.
  unfold syncConfigs. cbn [fst snd].
  destruct (map_fold (stopInactive (activeIDsOf configs))
              (Collector.collectors c, []) (Collector.collectors c))
    as [m1 l1] eqn:E1.
  destruct (stopInactive_fold (activeIDsOf configs) (Collector.collectors c) []
              (Collector.collectors c) id) as (H0 & H1 & H2).
  rewrite E1 in H0, H1, H2. simpl in H0, H1, H2.
  destruct (startNew_fold configs m1 l1 id) as (_ & H3 & H4).
  rewrite H3, H4, H0, H1, H2. simpl.
  destruct (Collector.collectors c !! id) as [cc|] eqn:Ec; [|done].
  split; [done|]. by destruct (decide (id ∈ activeIDsOf configs)).
Qed.

(** X12. [Start] and then [Stop].  Whatever the configuration fetch
    answered, [Stop] after [Start] leaves no collector registered and a
    collector that is not running, with its settings unchanged: on a new
    collector the round trip gives back the new collector.  And [Stop]
    closes the stop channel of every worker that [Start] started on a new
    collector, once each, and of no other. *)
Theorem Start_then_Stop (found : option (list RouteConfig.t)) (c : Collector.t) :
  (Stop (Start found c).1).1 =
    Collector.mk (Collector.intervalMs c) ∅ None None
      (Collector.startHour c) (Collector.endHour c)
  ∧ (∀ intervalMs startHour endHour,
       (Stop (Start found (NewCollector intervalMs startHour endHour)).1).1 =
         NewCollector intervalMs startHour endHour
       ∧ ∀ id,
           length (stopsOf id
             (Stop (Start found (NewCollector intervalMs startHour endHour)).1).2) =
           length (startsOf id
             (Start found (NewCollector intervalMs startHour endHour)).2)).
Proof.
  assert (Hrun : ∀ c', IsRunning (Start found c').1 = true).
  { intros c'. by rewrite (proj1 (Start_result found c')). }
  assert (Hround : ∀ c', (Stop (Start found c').1).1 =
            Collector.mk (Collector.intervalMs c') ∅ None None
              (Collector.startHour c') (Collector.endHour c')).
  { intros c'. rewrite (proj1 (Stop_running _ (Hrun c'))).
    by rewrite (proj1 (Start_result found c')). }
  split; [apply Hround|]. intros intervalMs startHour endHour.
  split; [apply Hround|]. intros id.
  destruct (Stop_running _ (Hrun (NewCollector intervalMs startHour endHour)))
    as (_ & _ & Hstops & _).
  rewrite Hstops.
  destruct (Start_result found (NewCollector intervalMs startHour endHour)) as [-> ->].
  rewrite startsOf_snoc, (decide_False (P := goReload = _)), app_nil_r by done.
  cbn [Collector.collectors].
  destruct found as [configs|].
  - rewrite syncConfigs_dom.
    destruct (syncConfigs_stops_starts configs
                (NewCollector intervalMs startHour endHour) id) as [_ ->].
    simpl. rewrite lookup_empty. by case_decide.
  - simpl. rewrite dom_empty_L. by rewrite decide_False by set_solver.
Qed.

(** A reconciliation against the IDs that are already running. *)
Lemma syncConfigs_settled configs (c : Collector.t) :
  dom (Collector.collectors c) = activeIDsOf configs →
  syncConfigs (Some configs) c = (c, []).
Proof.
  intros Hdom. destruct c as [iv coll ctx cancel sh eh]. simpl in Hdom.
  unfold syncConfigs. simpl. rewrite stopInactive_fold_idle.
  - rewrite startNew_fold_idle; [done|]. intros cfg Hcfg.
    apply elem_of_dom. rewrite Hdom. apply elem_of_activeIDsOf. eauto.
  - intros id Hid. apply elem_of_dom in Hid. by rewrite <- Hdom.
Qed.

(** X13. [Start] on a running collector.  [Start] does not look whether
    the collector is running.  Called again while the set of active IDs is
    the same, its only effect is the launch of one more reload goroutine:
    it closes no stop channel, starts no worker and does not cancel the
    main context of the first [Start]; the collectors map and the settings
    are as they were and the collector is running.  (Of [mainCtx] and
    [mainCancel] the model keeps whether they are nil; that the second
    [Start] puts fresh ones in their place is not part of this
    statement.) *)
Theorem Start_twice (c : Collector.t) (configs configs' : list RouteConfig.t) :
  activeIDsOf configs' = activeIDsOf configs →
  (Start (Some configs') (Start (Some configs) c).1).2 = [goReload]
  ∧ Collector.collectors (Start (Some configs') (Start (Some configs) c).1).1 =
      Collector.collectors (Start (Some configs) c).1
  ∧ IsRunning (Start (Some configs') (Start (Some configs) c).1).1 = true
  ∧ Collector.intervalMs (Start (Some configs') (Start (Some configs) c).1).1 =
      Collector.intervalMs c
  ∧ Collector.startHour (Start (Some configs') (Start (Some configs) c).1).1 =
      Collector.startHour c
  ∧ Collector.endHour (Start (Some configs') (Start (Some configs) c).1).1 =
      Collector.endHour c.
Proof.
  intros Hsame.
  destruct (Start_result (Some configs) c) as [Hc _].
  set (c1 := (Start (Some configs) c).1) in *.
  assert (Hsettled : syncConfigs (Some configs') c1 = (c1, [])).
  { apply syncConfigs_settled. rewrite Hc. cbn [Collector.collectors].
    by rewrite syncConfigs_dom. }
  destruct (Start_result (Some configs') c1) as [Hc' He'].
  rewrite Hsettled in Hc', He'.
  destruct (Start (Some configs') c1) as [c2 e2]. simpl in Hc', He'. subst c2 e2.
  rewrite Hc. done.
Qed.

(** Starting twice with the same two configurations, listed in a different
    order the second time. *)
Lemma Start_twice_witness :
  (Start (Some [cfg2; cfg0]) (Start (Some [cfg0; cfg2]) (NewCollector 30000 0 0)).1).2 =
    [goReload].
Proof.
  refine (proj1 (Start_twice (NewCollector 30000 0 0) [cfg0; cfg2] [cfg2; cfg0] _)).
  vm_compute. reflexivity.
Defined.

Lemma stopInactive_shape activeIDs (base : gmap Z configCollector.t) log
    (m : gmap Z configCollector.t) :
  ∃ stopped,
    (map_fold (stopInactive activeIDs) (base, log) m).2 =
      log ++ (closeStopChan <$> stopped).
Proof.
  apply (map_fold_weak_ind (λ r m',
    ∃ stopped, r.2 = log ++ (closeStopChan <$> stopped))).
  - exists []. by rewrite app_nil_r.
  - intros k cc m' [m1 l1] Hk (stopped & IH). simpl in IH.
    unfold stopInactive. case_decide; [by exists stopped|].
    exists (stopped ++ [k]). cbn [snd]. by rewrite IH, fmap_app, app_assoc.
Qed.

Lemma startNew_shape configs : ∀ (m : gmap Z configCollector.t) log,
  ∃ started,
    (foldl startNew (m, log) configs).2 = log ++ (goCollectForConfig <$> started)
    ∧ started `sublist_of` (RouteConfig.ID <$> configs).
Proof.
  induction configs as [|cfg configs IH]; intros m log.
  - exists []. by rewrite app_nil_r.
  - cbn [foldl]. unfold startNew at 2. cbn [fst snd].
    destruct (m !! RouteConfig.ID cfg) as [cc|].
    + destruct (IH m log) as (started & -> & Hsub).
      exists started. split; [done|]. rewrite fmap_cons. by apply sublist_cons.
    + destruct (IH (<[RouteConfig.ID cfg := configCollector.mk cfg makeChan]> m)
                  (log ++ [goCollectForConfig (RouteConfig.ID cfg)]))
        as (started & -> & Hsub).
      exists (RouteConfig.ID cfg :: started). rewrite <- app_assoc.
      split; [done|]. rewrite fmap_cons. by apply sublist_skip.
Qed.

(** X14. The order of a reconciliation.  [syncConfigs] only closes stop
    channels and starts workers; every close comes before every start, and
    the workers are started in the order in which their configurations
    appear in the fetched list. *)
Theorem syncConfigs_stops_then_starts (c : Collector.t) (configs : list RouteConfig.t) :
  ∃ stopped started,
    (syncConfigs (Some configs) c).2 =
      (closeStopChan <$> stopped) ++ (goCollectForConfig <$> started)
    ∧ started `sublist_of` (RouteConfig.ID <$> configs).
Proof.
  unfold syncConfigs. cbn [snd].
  destruct (stopInactive_shape (activeIDsOf configs) (Collector.collectors c) []
              (Collector.collectors c)) as (stopped & Hstopped).
  destruct (map_fold (stopInactive (activeIDsOf configs))
              (Collector.collectors c, []) (Collector.collectors c)) as [m1 l1].
  simpl in Hstopped. subst l1.
  destruct (startNew_shape configs m1 (closeStopChan <$> stopped))
    as (started & -> & Hsub).
  by exists stopped, started.
Qed.

(** ** The time window, hour by hour *)

(** X15. Swapping the hours.  For two different hours the window from
    [endHour] to [startHour] is open exactly when the window from
    [startHour] to [endHour] is closed. *)
Theorem window_swap_is_complement (startHour endHour h : Z) :
  startHour ≠ endHour →
  isWithinTimeWindow endHour startHour h = negb (isWithinTimeWindow startHour endHour h).
Proof.
  intros Hne. unfold isWithinTimeWindow.
  destruct (Z.eqb_spec startHour 0), (Z.eqb_spec endHour 0); simpl; try lia;
    destruct (Z.ltb_spec startHour endHour), (Z.ltb_spec endHour startHour);
    destruct (Z.gtb_spec startHour endHour), (Z.gtb_spec endHour startHour);
    try lia;
    destruct (Z.geb_spec h startHour), (Z.geb_spec h endHour),
      (Z.ltb_spec h startHour), (Z.ltb_spec h endHour); simpl; try lia; done.
Qed.

(** The windows 22-2 and 2-22 at 10 o'clock. *)
Lemma window_swap_is_complement_witness :
  isWithinTimeWindow 2 22 10 = negb (isWithinTimeWindow 22 2 10).
Proof. refine (window_swap_is_complement 22 2 10 _). discriminate. Defined.

Lemma open_hours_table :
  forallb (λ s, forallb (λ e,
    Nat.eqb (length (openHours s e)) (Z.to_nat (windowLength s e)))
    (seqZ 0 24)) (seqZ 0 24) = true.
Proof. vm_compute. reflexivity. Qed.

(** X16. The length of the window.  For hours in 0..23 the window is open
    during 24 hours of the day when both are 0, during [endHour -
    startHour] hours when [startHour < endHour], during [24 - startHour +
    endHour] hours when it wraps past midnight, and during one hour when
    the two are equal and not 0; so no setting closes the window all
    day. *)
Theorem open_hours_count (startHour endHour : Z) :
  0 ≤ startHour < 24 →
  0 ≤ endHour < 24 →
  length (openHours startHour endHour) = Z.to_nat (windowLength startHour endHour)
  ∧ (1 ≤ length (openHours startHour endHour))%nat.
Proof.
  intros Hs He.
  assert (Hlen : length (openHours startHour endHour) =
                   Z.to_nat (windowLength startHour endHour)).
  { pose proof open_hours_table as Ht.
    rewrite forallb_forall in Ht.
    specialize (Ht startHour). rewrite forallb_forall in Ht.
    apply Nat.eqb_eq, Ht.
    - apply list_elem_of_In, elem_of_seqZ. lia.
    - apply list_elem_of_In, elem_of_seqZ. lia. }
  split; [done|]. rewrite Hlen. unfold windowLength.
  destruct (Z.eqb_spec startHour 0), (Z.eqb_spec endHour 0); simpl; try lia;
    destruct (Z.ltb_spec startHour endHour), (Z.ltb_spec endHour startHour); lia.
Qed.

(** The window 22-2 is open during four hours. *)
Lemma open_hours_count_witness :
  length (openHours 22 2) = Z.to_nat (windowLength 22 2).
Proof. refine (proj1 (open_hours_count 22 2 _ _)); lia. Defined.

(** ** The snapshot client *)

Lemma arrivalsOfItem_length item :
  (length (OpenAPIClient.arrivalsOfItem item) ≤ 2)%nat.
Proof.
  unfold OpenAPIClient.arrivalsOfItem. rewrite length_app.
  repeat case_decide; simpl; lia.
Qed.

Lemma GetRouteArrivalList_ok reply arrivals :
  OpenAPIClient.GetRouteArrivalList reply = inr arrivals →
  ∃ jsonResp,
    reply = replied 200 (decoded jsonResp)
    ∧ ArrivalItemResponse.ResultCode jsonResp = 0
    ∧ arrivals = OpenAPIClient.arrivalsOfItem (ArrivalItemResponse.BusArrivalItem jsonResp).
Proof.
  unfold OpenAPIClient.GetRouteArrivalList.
  destruct reply as [|statusCode [| |jsonResp]]; try done;
    destruct (decide (statusCode ≠ 200)) as [|Hs%dec_stable]; try done.
  destruct (decide (ArrivalItemResponse.ResultCode jsonResp ≠ 0)) as [|Hc%dec_stable];
    [done|].
  intros [= <-]. exists jsonResp. by subst statusCode.
Qed.

(** X17. What the snapshot client returns.  [GetRouteArrivalList] returns
    arrivals only for a reply with status 200 that decodes to a response
    with result code 0; it then returns at most two arrivals, none with an
    empty plate, each carrying the route and station of the response item;
    and a nonempty plate is listed exactly when it is one of the two plates
    of the item. *)
Theorem route_arrivals_of_reply (reply : HttpReply ArrivalItemResponse.t)
    (arrivals : list BusArrivalInfo.t) :
  OpenAPIClient.GetRouteArrivalList reply = inr arrivals →
  ∃ jsonResp,
    reply = replied 200 (decoded jsonResp)
    ∧ ArrivalItemResponse.ResultCode jsonResp = 0
    ∧ (length arrivals ≤ 2)%nat
    ∧ Forall (λ a,
        BusArrivalInfo.PlateNo a ≠ ""
        ∧ BusArrivalInfo.RouteID a =
            BusArrivalItem.RouteID (ArrivalItemResponse.BusArrivalItem jsonResp)
        ∧ BusArrivalInfo.StationID a =
            BusArrivalItem.StationID (ArrivalItemResponse.BusArrivalItem jsonResp))
        arrivals
    ∧ (∀ p, p ≠ "" →
         (sightings p arrivals ≠ [] ↔
          BusArrivalItem.PlateNo1 (ArrivalItemResponse.BusArrivalItem jsonResp) = p
          ∨ BusArrivalItem.PlateNo2 (ArrivalItemResponse.BusArrivalItem jsonResp) = p)).
Proof.
  intros (jsonResp & -> & Hcode & ->)%GetRouteArrivalList_ok.
  exists jsonResp. split; [done|]. split; [done|].
  split; [apply arrivalsOfItem_length|].
  set (item := ArrivalItemResponse.BusArrivalItem jsonResp).
  unfold OpenAPIClient.arrivalsOfItem. split.
  - apply Forall_app. split; case_decide; [constructor| |constructor|];
      (constructor; [by simpl|constructor]).
  - intros p Hp. unfold sightings. rewrite decide_False by done.
    rewrite filter_app.
    destruct (decide (BusArrivalItem.PlateNo1 item = "")) as [E1|E1],
             (decide (BusArrivalItem.PlateNo2 item = "")) as [E2|E2];
      rewrite ?filter_nil, ?filter_cons, ?filter_nil; simpl;
      repeat case_decide; simpl in *; intuition congruence.
Qed.

(** A reply with one vehicle. *)
Lemma route_arrivals_of_reply_witness :
  ∃ jsonResp,
    oneVehicle = replied 200 (decoded jsonResp)
    ∧ ArrivalItemResponse.ResultCode jsonResp = 0
    ∧ (length [BusArrivalInfo.mk 100 200 0 "A1" 17 4 2 1] ≤ 2)%nat
    ∧ Forall (λ a,
        BusArrivalInfo.PlateNo a ≠ ""
        ∧ BusArrivalInfo.RouteID a =
            BusArrivalItem.RouteID (ArrivalItemResponse.BusArrivalItem jsonResp)
        ∧ BusArrivalInfo.StationID a =
            BusArrivalItem.StationID (ArrivalItemResponse.BusArrivalItem jsonResp))
        [BusArrivalInfo.mk 100 200 0 "A1" 17 4 2 1]
    ∧ (∀ p, p ≠ "" →
         (sightings p [BusArrivalInfo.mk 100 200 0 "A1" 17 4 2 1] ≠ [] ↔
          BusArrivalItem.PlateNo1 (ArrivalItemResponse.BusArrivalItem jsonResp) = p
          ∨ BusArrivalItem.PlateNo2 (ArrivalItemResponse.BusArrivalItem jsonResp) = p)).
Proof.
  refine (route_arrivals_of_reply oneVehicle [BusArrivalInfo.mk 100 200 0 "A1" 17 4 2 1] _).
  reflexivity.
Defined.

(** X18. A cycle fed by the snapshot client.  When the snapshot of a cycle
    is what the client makes of a reply, the cycle adds at most two plates
    to the map, and it changes the map or hands a record to the sink only
    if the reply had status 200 and decoded to a response with result
    code 0. *)
Theorem cycle_fed_by_client (cfg : RouteConfig.t) (up : Upstream)
    (m : gmap string BusState.t) (reply : HttpReply ArrivalItemResponse.t) :
  GetRouteArrivalList up = snapshotOf reply →
  (size (collectData cfg up m).1 ≤ size m + 2)%nat
  ∧ (collectData cfg up m ≠ (m, []) →
     ∃ jsonResp, reply = replied 200 (decoded jsonResp)
                 ∧ ArrivalItemResponse.ResultCode jsonResp = 0).
Proof.
  intros Hup. split.
  - pose proof (collectData_size cfg up m) as Hsize. rewrite Hup in Hsize.
    unfold snapshotOf in Hsize.
    destruct (OpenAPIClient.GetRouteArrivalList reply) as [err|arrivals] eqn:E;
      simpl in Hsize; [lia|].
    apply GetRouteArrivalList_ok in E as (jsonResp & _ & _ & ->).
    pose proof (arrivalsOfItem_length (ArrivalItemResponse.BusArrivalItem jsonResp)).
    lia.
  - intros Hchanged. unfold snapshotOf in Hup.
    destruct (OpenAPIClient.GetRouteArrivalList reply) as [err|arrivals] eqn:E.
    + exfalso. apply Hchanged. unfold collectData. by rewrite Hup.
    + apply GetRouteArrivalList_ok in E as (jsonResp & ? & ? & _). eauto.
Qed.

(** A cycle whose snapshot is that reply. *)
Lemma cycle_fed_by_client_witness :
  (size (collectData cfg0
           {| now := 1000 * time.Second;
              GetRouteArrivalList := snapshotOf oneVehicle;
              GetBusLocations := λ _ _, None;
              Create := λ _, true |} ∅).1 ≤ size (∅ : gmap string BusState.t) + 2)%nat.
Proof.
  refine (proj1 (cycle_fed_by_client cfg0
            {| now := 1000 * time.Second;
               GetRouteArrivalList := snapshotOf oneVehicle;
               GetBusLocations := λ _ _, None;
               Create := λ _, true |} ∅ oneVehicle _)).
  reflexivity.
Defined.

(** ** Settings and the controls of the application *)

(** X19. The settings the collector is built from.  Whatever the stored
    settings say, the loaded configuration has a positive collection
    interval, the stored one when that is positive and 30000 ms otherwise,
    it selects the sqlite driver and the database file inside the storage
    path; and the collector built from it is not running and has no
    collector registered. *)
Theorem loaded_settings (Join : string → string → string) (settings : AppSettings.t) :
  0 < CollectorConfig.IntervalMs (Config.Collector (LoadFromSettings Join settings))
  ∧ (0 < AppSettings.IntervalMs settings →
     CollectorConfig.IntervalMs (Config.Collector (LoadFromSettings Join settings)) =
       AppSettings.IntervalMs settings)
  ∧ (AppSettings.IntervalMs settings ≤ 0 →
     CollectorConfig.IntervalMs (Config.Collector (LoadFromSettings Join settings)) =
       30000)
  ∧ DatabaseConfig.DriverName (Config.Database (LoadFromSettings Join settings)) =
      "sqlite3"
  ∧ DatabaseConfig.FilePath (Config.Database (LoadFromSettings Join settings)) =
      Join (AppSettings.StoragePath settings) "bus_history.db"
  ∧ 0 < Collector.intervalMs (initialCollector Join settings)
  ∧ IsRunning (initialCollector Join settings) = false
  ∧ Collector.collectors (initialCollector Join settings) = ∅
  ∧ Stop (initialCollector Join settings) = (initialCollector Join settings, []).
Proof.
  unfold initialCollector, LoadFromSettings. simpl.
  destruct (Z.leb_spec (AppSettings.IntervalMs settings) 0);
    repeat split; try done; lia.
Qed.

(** Settings without an interval. *)
Lemma loaded_settings_witness :
  CollectorConfig.IntervalMs
    (Config.Collector (LoadFromSettings slashJoin (AppSettings.mk "/data" "key" 22 2 0))) =
  30000.
Proof.
  refine (proj1 (proj2 (proj2 (loaded_settings slashJoin
            (AppSettings.mk "/data" "key" 22 2 0)))) _).
  simpl. lia.
Defined.

Lemma Stop_not_running (c : Collector.t) :
  IsRunning (Stop c).1 = false ∧ (IsRunning c = false → Stop c = (c, [])).
Proof.
  unfold Stop, IsRunning. destruct (Collector.mainCancel c) eqn:E; simpl; [done|].
  by rewrite E.
Qed.

(** X20. The collection controls.  After [StopCollection] the status is
    "not collecting" and a second [StopCollection] does nothing; without
    an initialized collector [StartCollection] is an error, and it and
    [StopCollection] leave the application as it was; with one,
    [StartCollection] returns no error and the status is "collecting". *)
Theorem collection_controls (found : option (list RouteConfig.t)) (a : App.t) :
  GetCollectionStatus (StopCollection a).1 = false
  ∧ StopCollection (StopCollection a).1 = ((StopCollection a).1, [])
  ∧ (App.collector a = None →
     StartCollection found a = (a, [], Some errNotInitialized)
     ∧ StopCollection a = (a, [])
     ∧ GetCollectionStatus a = false)
  ∧ (is_Some (App.collector a) →
     (StartCollection found a).2 = None
     ∧ GetCollectionStatus (StartCollection found a).1.1 = true).
Proof.
  unfold StopCollection, StartCollection, GetCollectionStatus.
  destruct (App.collector a) as [c|] eqn:Ec; simpl; rewrite ?Ec.
  - destruct (Stop_not_running c) as [Hoff _].
    destruct (Stop_not_running (Stop c).1) as [_ Hidle].
    rewrite (Hidle Hoff). simpl. split; [done|]. split; [done|]. split; [done|].
    intros _. split; [done|]. by rewrite (proj1 (Start_result found c)).
  - split; [done|]. split; [done|]. split; [done|]. by intros [? ?].
Qed.

(** Starting the collection before the services are initialized. *)
Lemma collection_controls_witness :
  StartCollection (Some [cfg0]) (App.mk false None) =
    (App.mk false None, [], Some errNotInitialized).
Proof.
  refine (proj1 (proj1 (proj2 (proj2 (collection_controls (Some [cfg0])
            (App.mk false None)))) _)).
  reflexivity.
Defined.

(** X21. Registering a configuration.  [CreateConfig] fails without a
    repository, leaving everything as it was, and after a failed insert it
    starts nothing; otherwise the configuration is stored active under the
    new ID, an initialized collector is running afterwards ([Start] is
    called only if it was not), and a reconciliation is requested as the
    last effect. *)
Theorem CreateConfig_registers_and_starts (created : option Z)
    (found : option (list RouteConfig.t)) (a : App.t) (cfg : RouteConfig.t) :
  (App.configRepo a = false →
   CreateConfig created found a cfg = (a, cfg, [], Some errDBNotInitialized))
  ∧ (App.configRepo a = true →
     RouteConfig.IsActive (CreateConfig created found a cfg).1.1.2 = true
     ∧ (created = None →
        (CreateConfig created found a cfg).1.1.1 = a
        ∧ (CreateConfig created found a cfg).1.2 = []
        ∧ (CreateConfig created found a cfg).2 = Some errRepository)
     ∧ (∀ id, created = Some id →
        (CreateConfig created found a cfg).2 = None
        ∧ RouteConfig.ID (CreateConfig created found a cfg).1.1.2 = id
        ∧ (App.collector a = None →
           (CreateConfig created found a cfg).1.1.1 = a
           ∧ (CreateConfig created found a cfg).1.2 = [])
        ∧ (∀ c, App.collector a = Some c →
           GetCollectionStatus (CreateConfig created found a cfg).1.1.1 = true
           ∧ last (CreateConfig created found a cfg).1.2 = Some goSyncConfigs
           ∧ (IsRunning c = true →
              (CreateConfig created found a cfg).1.1.1 = a
              ∧ (CreateConfig created found a cfg).1.2 = [goSyncConfigs])))).
Proof.
  unfold CreateConfig. split; [by intros ->|]. intros Hrepo. rewrite Hrepo. simpl.
  destruct created as [id|]; simpl.
  - split; [by destruct (App.collector a)|]. split; [done|].
    intros ? [= <-]. destruct (App.collector a) as [c|] eqn:Ec; simpl.
    + split; [done|]. split; [done|]. split; [done|].
      intros ? [= <-]. unfold GetCollectionStatus. simpl.
      destruct (IsRunning c) eqn:Hrun; simpl.
      * split; [done|]. split; [done|]. intros _. split; [|done].
        destruct a as [repo coll]. simpl in *. by subst.
      * rewrite (proj1 (Start_result found c)). split; [done|].
        split; [by rewrite last_snoc|done].
    + split; [done|]. split; [done|]. split; [done|]. done.
  - split; [done|]. split; [done|]. done.
Qed.

(** Registering a configuration that arrives marked inactive. *)
Lemma CreateConfig_registers_and_starts_witness :
  RouteConfig.IsActive
    (CreateConfig (Some 7) (Some [])
       (App.mk true (Some (NewCollector 30000 0 0)))
       (RouteConfig.mk 0 "R100" "100" "S200" "Central" "" 3 false 0 0)).1.1.2 = true.
Proof.
  refine (proj1 (proj2 (CreateConfig_registers_and_starts (Some 7) (Some [])
            (App.mk true (Some (NewCollector 30000 0 0)))
            (RouteConfig.mk 0 "R100" "100" "S200" "Central" "" 3 false 0 0)) _)).
  reflexivity.
Defined.

(** [GetBusLocations] returns locations only for a good reply. *)
Lemma GetBusLocations_ok (reply : HttpReply LocationListResponse.t)
    (locations : list BusLocation.t) :
  GBISClient.GetBusLocations reply = inr locations →
  ∃ jsonResp,
    reply = replied 200 (decoded jsonResp)
    ∧ LocationListResponse.ResultCode jsonResp = 0
    ∧ locations = LocationListResponse.BusLocationList jsonResp.
Proof.
  unfold GBISClient.GetBusLocations, GBISClient.makeRequest.
  destruct reply as [|statusCode body]; [done|].
  destruct (decide (statusCode = 200)) as [->|Hne].
  - rewrite decide_False by (by intros H; apply H).
    destruct body as [| |jsonResp]; try done.
    destruct (decide (LocationListResponse.ResultCode jsonResp = 0)) as [Hc|Hc].
    + rewrite decide_False by (by intros H; apply H).
      intros [= <-]. by exists jsonResp.
    + by rewrite decide_True.
  - by rewrite decide_True.
Qed.

(** X22. A confirmation fed by the location client.  When the lookup of a
    confirmation is what [GetBusLocations] makes of a reply, a seat count
    is confirmed only if the reply had status 200 and decoded to a
    response with result code 0 that lists the plate with that seat
    count, which is then not negative; every error of the client is "no
    confirmation"; and on a good reply the first location with the plate
    decides. *)
Theorem confirmation_fed_by_client (up : Upstream) (routeID plateNo : string)
    (reply : HttpReply LocationListResponse.t) :
  GetBusLocations up routeID plateNo = locationsOf reply →
  (∀ v, getSeatsAfterFromBusLocation up routeID plateNo = Some v →
        0 ≤ v
        ∧ ∃ jsonResp loc,
            reply = replied 200 (decoded jsonResp)
            ∧ LocationListResponse.ResultCode jsonResp = 0
            ∧ loc ∈ LocationListResponse.BusLocationList jsonResp
            ∧ BusLocation.PlateNo loc = plateNo
            ∧ BusLocation.RemainSeatCnt loc = v)
  ∧ (∀ err, GBISClient.GetBusLocations reply = inl err →
            getSeatsAfterFromBusLocation up routeID plateNo = None)
  ∧ (∀ jsonResp,
       reply = replied 200 (decoded jsonResp) →
       LocationListResponse.ResultCode jsonResp = 0 →
       getSeatsAfterFromBusLocation up routeID plateNo =
         scanLocations (LocationListResponse.BusLocationList jsonResp) plateNo).
Proof.
  intros Hup. unfold getSeatsAfterFromBusLocation. rewrite Hup.
  unfold locationsOf. split; [|split].
  - intros v Hv.
    destruct (GBISClient.GetBusLocations reply) as [err|locations] eqn:E; [done|].
    destruct (GetBusLocations_ok _ _ E) as (jsonResp & -> & Hcode & ->).
    destruct (scanLocations_Some _ _ _ Hv) as (Hpos & loc & Hin & Hp & Hs).
    split; [done|]. by exists jsonResp, loc.
  - by intros err ->.
  - intros jsonResp -> Hcode.
    unfold GBISClient.GetBusLocations, GBISClient.makeRequest.
    rewrite decide_False by (by intros H; apply H).
    rewrite decide_False by (by intros H; apply H). done.
Qed.

(** The plate of the scenario is confirmed with four seats. *)
Lemma confirmation_fed_by_client_witness :
  0 ≤ 4
  ∧ ∃ jsonResp loc,
      twoLocations = replied 200 (decoded jsonResp)
      ∧ LocationListResponse.ResultCode jsonResp = 0
      ∧ loc ∈ LocationListResponse.BusLocationList jsonResp
      ∧ BusLocation.PlateNo loc = "A1"
      ∧ BusLocation.RemainSeatCnt loc = 4.
Proof.
  refine (proj1 (confirmation_fed_by_client confirming "R100" "A1" twoLocations _) 4 _).
  - reflexivity.
  - reflexivity.
Defined.

(** X23. Initializing the services stops the collection.  Whether or not
    it succeeds, [initializeServices] stops the collector it finds, with
    the effects of [Stop] and no other, and leaves an application that is
    not collecting.  It succeeds exactly when the storage directory and
    the database could be opened; the application then has a repository
    and the new collector, built from the settings and not started; when
    it fails the application keeps the old collector, stopped. *)
Theorem initializeServices_stops_collection (Join : string → string → string)
    (settings : AppSettings.t) (mkdirAll sqlOpen : bool) (a : App.t) :
  GetCollectionStatus (initializeServices Join settings mkdirAll sqlOpen a).1.1 = false
  ∧ (initializeServices Join settings mkdirAll sqlOpen a).1.2 = (StopCollection a).2
  ∧ ((initializeServices Join settings mkdirAll sqlOpen a).2 = None ↔
     mkdirAll = true ∧ sqlOpen = true)
  ∧ ((initializeServices Join settings mkdirAll sqlOpen a).2 = None →
     (initializeServices Join settings mkdirAll sqlOpen a).1.1 =
       App.mk true (Some (initialCollector Join settings)))
  ∧ ((initializeServices Join settings mkdirAll sqlOpen a).2 ≠ None →
     (initializeServices Join settings mkdirAll sqlOpen a).1.1 = (StopCollection a).1).
Proof.
  unfold initializeServices, StopCollection, GetCollectionStatus, initialCollector.
  destruct a as [repo [c|]], mkdirAll, sqlOpen; simpl;
    repeat split; try done; try (by intros [? ?]); try (by intros []);
    try apply (proj1 (Stop_not_running c)).
Qed.

(** Changing the settings while two workers run. *)
Lemma initializeServices_stops_collection_witness :
  (initializeServices slashJoin (AppSettings.mk "/data" "key" 22 2 0) true true
     (App.mk true (Some supervising))).1.1 =
    App.mk true (Some (initialCollector slashJoin (AppSettings.mk "/data" "key" 22 2 0))).
Proof.
  refine (proj1 (proj2 (proj2 (proj2 (initializeServices_stops_collection slashJoin
            (AppSettings.mk "/data" "key" 22 2 0) true true
            (App.mk true (Some supervising)))))) _).
  reflexivity.
Defined.

